(** * ModelBook: the catalog of named flappy models and its reduction

    A shallow embedding of [model_book.py].  The class [ModelBook] owns one
    Python dict per model family; [__init__] populates them and [reduce]
    builds a second book that keeps only what the turbines of a wind farm
    refer to.

    Python objects have identity and mutable attributes, so the model
    instances live in a heap and the dicts store addresses.  The dicts
    themselves are insertion-ordered association lists.  The classes of the
    [flappy.models] package are external: a constructor call returns a new
    instance, recorded with its keyword arguments, and the value of the
    [partial_wakes] attribute that a constructor sets is a parameter of
    the development. *)

From Stdlib Require Import List String ZArith DecimalString Lia.
From stdpp Require Import base list strings.
Import ListNotations.

Local Open Scope string_scope.
Local Open Scope list_scope.

(** ** Python built-ins used by the source *)

(** [str(n)] for a non-negative integer. *)
Definition str (n : nat) : string := NilZero.string_of_uint (Nat.to_uint n).

(** [range(lo, hi)]. *)
Definition range (lo hi : nat) : list nat := seq lo (hi - lo).

(** A [dict] with string keys: pairs in insertion order. *)
Definition dict (V : Type) : Type := list (string * V).

Fixpoint dict_get {V} (k : string) (d : dict V) : option V :=
  match d with
  | [] => None
  | (k', v) :: d' => if String.eqb k k' then Some v else dict_get k d'
  end.

(** [k in d]. *)
Definition dict_mem {V} (k : string) (d : dict V) : bool :=
  match dict_get k d with Some _ => true | None => false end.

(** [d[k] = v]: an existing key keeps its position and gets the new value,
    a new key goes to the end. *)
Fixpoint dict_set {V} (k : string) (v : V) (d : dict V) : dict V :=
  match d with
  | [] => [(k, v)]
  | (k', v') :: d' =>
      if String.eqb k k' then (k', v) :: d' else (k', v') :: dict_set k v d'
  end.

(** [list(d.keys())]. *)
Definition dict_keys {V} (d : dict V) : list string := map fst d.

(** Number of entries stored under [k]. *)
Definition dict_count {V} (k : string) (d : dict V) : nat :=
  length (List.filter (fun kv => String.eqb k (fst kv)) d).

(** ** Constructor calls into [flappy.models]

    One constructor per class that the source instantiates, carrying the
    keyword arguments as they are written in the source.  A float literal
    is kept as mantissa and decimal exponent. *)

Record decimal := Dec { mantissa : Z; exponent : Z }.

Inductive flm : Type :=
  | RMCentre
  | RMStencil
  | RMRing (n : nat)
  | RMRings (m : list nat) (angle0_deg : option (list nat))
  | RMGrid (n : nat)
  | Ws2PCt (ct_power_curve_file : string)
  | Yaw2Yawm (ambient_wd ambient_yaw : bool)
  | Yawm2Yaw (ambient_wd ambient_yaw : bool)
  | ZeroOutsideFarm
  | FarmTurbineOrder
  | WindTurbineOrder (use_amb : bool)
  | WakeFrameTurbineOrder
  | WTCDefault
  | WMJensen (k : option decimal)
  | WMFrandsen
  | WMBastankhah (delta_wd : option decimal)
  | WMPorteAgel
  | WMBotasso
  | WMIshiharaWind
  | WMIshiharaTI
  | WMIECTI2005
  | WMIECTI2019
  | WMTICrespoHernandez
  | TISuperpCollection (ti_superp : string)
  | WindSuperpLinear (use_ambws limit_wake : bool)
  | WindSuperpQuadratic (use_ambws limit_wake : bool)
  | WindSuperpProduct
  | AmbientWindFrame
  | RotorWindFrame
  | YawDeflectionFrame
  | StreamlineFrame
  | CablesMST.

(** ** The heap of model instances *)

(** An instance remembers the call that built it (its configuration) and
    carries the mutable attribute [partial_wakes]. *)
Record instance := Instance { made_by : flm; partial_wakes : bool }.

(** Addresses are positions in the heap. *)
Abbreviation addr := nat.
Abbreviation heap := (list instance).

(** What can go wrong: a dict lookup with a missing key, a list index out
    of range, and a reference to no object (which Python rules out; it is
    the failure of the model on an ill-formed heap). *)
Inductive error : Type :=
  | KeyError (key : string)
  | IndexError
  | BadReference (a : addr).

Inductive result (A : Type) : Type :=
  | Ok (a : A)
  | Err (e : error).
Arguments Ok {A} a.
Arguments Err {A} e.

(** Statements run on the heap and either produce a value or raise; the
    heap survives an exception. *)
Definition M (A : Type) : Type := heap -> result A * heap.

Definition ret {A} (a : A) : M A := fun h => (Ok a, h).

Definition raise {A} (e : error) : M A := fun h => (Err e, h).

Definition bind {A B} (c : M A) (k : A -> M B) : M B :=
  fun h => match c h with
           | (Ok a, h') => k a h'
           | (Err e, h') => (Err e, h')
           end.

Notation "x <- c ;; k" := (bind c (fun x => k))
  (at level 100, c at next level, right associativity, only parsing).

(** [for x in xs: s = body(x, s)]. *)
Fixpoint for_each {A S} (xs : list A) (body : A -> S -> M S) (s : S) : M S :=
  match xs with
  | [] => ret s
  | x :: xs' => s' <- body x s ;; for_each xs' body s'
  end.

(** [d[k]] as an expression. *)
Definition getitem {V} (d : dict V) (k : string) : M V :=
  match dict_get k d with
  | Some v => ret v
  | None => raise (KeyError k)
  end.

(** [d[k] = <expr>]: the right-hand side is evaluated, then stored. *)
Definition setitem {V} (d : dict V) (k : string) (rhs : M V) : M (dict V) :=
  v <- rhs ;; ret (dict_set k v d).

(** [o.partial_wakes]. *)
Definition get_partial_wakes (a : addr) : M bool :=
  fun h => match h !! a with
           | Some o => (Ok (partial_wakes o), h)
           | None => (Err (BadReference a), h)
           end.

(** [o.partial_wakes = b]. *)
Definition set_partial_wakes (a : addr) (b : bool) : M unit :=
  fun h => match h !! a with
           | Some o => (Ok tt, <[a := Instance (made_by o) b]> h)
           | None => (Err (BadReference a), h)
           end.

(** [deepcopy(o)]: a new object with the same configuration and attribute
    values as [o]. *)
Definition deepcopy (a : addr) : M addr :=
  fun h => match h !! a with
           | Some o => (Ok (length h), h ++ [Instance (made_by o) (partial_wakes o)])
           | None => (Err (BadReference a), h)
           end.

(** ** The catalog *)

Record ModelBook := Book {
  amb_states_models : dict addr;
  rotor_models : dict addr;
  turbine_models : dict addr;
  turbine_orders : dict addr;
  controllers : dict addr;
  wake_models : dict addr;
  wake_superp : dict addr;
  wake_frames : dict addr;
  farm_calc_data_models : dict addr;
  vert_profiles : dict string
}.

(** The five attributes that [reduce] rebuilds, and the turbine info
    entries that go with them. *)
Inductive mtyp := Mrotor_models | Mturbine_models | Mcontrollers | Mwake_models | Mwake_frames.
Inductive ttyp := Trotor_model | Tturbine_models | Tcontroller | Twake_models | Twake_frame.

Definition mtyps : list mtyp :=
  [Mrotor_models; Mturbine_models; Mcontrollers; Mwake_models; Mwake_frames].
Definition ttyps : list ttyp :=
  [Trotor_model; Tturbine_models; Tcontroller; Twake_models; Twake_frame].

(** [book.__dict__[mtyp]]. *)
Definition get_attr (mt : mtyp) (b : ModelBook) : dict addr :=
  match mt with
  | Mrotor_models => rotor_models b
  | Mturbine_models => turbine_models b
  | Mcontrollers => controllers b
  | Mwake_models => wake_models b
  | Mwake_frames => wake_frames b
  end.

(** [book.__dict__[mtyp] = d]. *)
Definition set_attr (mt : mtyp) (d : dict addr) (b : ModelBook) : ModelBook :=
  match mt with
  | Mrotor_models =>
      Book (amb_states_models b) d (turbine_models b) (turbine_orders b)
           (controllers b) (wake_models b) (wake_superp b) (wake_frames b)
           (farm_calc_data_models b) (vert_profiles b)
  | Mturbine_models =>
      Book (amb_states_models b) (rotor_models b) d (turbine_orders b)
           (controllers b) (wake_models b) (wake_superp b) (wake_frames b)
           (farm_calc_data_models b) (vert_profiles b)
  | Mcontrollers =>
      Book (amb_states_models b) (rotor_models b) (turbine_models b) (turbine_orders b)
           d (wake_models b) (wake_superp b) (wake_frames b)
           (farm_calc_data_models b) (vert_profiles b)
  | Mwake_models =>
      Book (amb_states_models b) (rotor_models b) (turbine_models b) (turbine_orders b)
           (controllers b) d (wake_superp b) (wake_frames b)
           (farm_calc_data_models b) (vert_profiles b)
  | Mwake_frames =>
      Book (amb_states_models b) (rotor_models b) (turbine_models b) (turbine_orders b)
           (controllers b) (wake_models b) (wake_superp b) d
           (farm_calc_data_models b) (vert_profiles b)
  end.

Definition set_wake_superp (d : dict addr) (b : ModelBook) : ModelBook :=
  Book (amb_states_models b) (rotor_models b) (turbine_models b) (turbine_orders b)
       (controllers b) (wake_models b) d (wake_frames b)
       (farm_calc_data_models b) (vert_profiles b).

Definition set_turbine_orders (d : dict addr) (b : ModelBook) : ModelBook :=
  Book (amb_states_models b) (rotor_models b) (turbine_models b) d
       (controllers b) (wake_models b) (wake_superp b) (wake_frames b)
       (farm_calc_data_models b) (vert_profiles b).

(** ** Turbines

    [t.info] of a turbine, restricted to the five entries that [reduce]
    reads: a single key for the rotor model, the controller and the wake
    frame, a sequence of keys for the turbine models and the wake
    models. *)
Record Turbine := {
  info_rotor_model : string;
  info_turbine_models : list string;
  info_controller : string;
  info_wake_models : list string;
  info_wake_frame : string
}.

(** [t.info[ttyp]] where it is a single key. *)
Definition info_key (ty : ttyp) (t : Turbine) : string :=
  match ty with
  | Trotor_model => info_rotor_model t
  | Tcontroller => info_controller t
  | Twake_frame => info_wake_frame t
  | Tturbine_models | Twake_models => ""
  end.

(** [t.info[ttyp]] where it is a sequence of keys. *)
Definition info_keys (ty : ttyp) (t : Turbine) : list string :=
  match ty with
  | Tturbine_models => info_turbine_models t
  | Twake_models => info_wake_models t
  | Trotor_model | Tcontroller | Twake_frame => []
  end.

(** [ttyp == 'wake_models' or ttyp == 'turbine_models']. *)
Definition is_sequence (ty : ttyp) : bool :=
  match ty with
  | Twake_models | Tturbine_models => true
  | _ => false
  end.

(** The keys that turbine [t] references for [ty], in the order in which
    [reduce] meets them. *)
Definition refs (ty : ttyp) (t : Turbine) : list string :=
  if is_sequence ty then info_keys ty t else [info_key ty t].

Section Source.

(** The value that the constructor of a flappy class gives to the
    attribute [partial_wakes] of the instance it returns. *)
Variable flm_partial_wakes : flm -> bool.

(** The instance that [flm.C(...)] returns. *)
Definition fresh (c : flm) : instance := Instance c (flm_partial_wakes c).

(** A constructor call [flm.C(...)]: allocates the instance. *)
Definition new (c : flm) : M addr :=
  fun h => (Ok (length h), h ++ [fresh c]).

(** *** [ModelBook.__init__], section by section *)

(** The bodies of the two loops that generate rotor models. *)
Definition register_ring (n : nat) (rotor_models : dict addr) : M (dict addr) :=
  setitem rotor_models ("ring" +:+ str (n + 1)) (new (RMRing n)).

Definition register_grid (n : nat) (rotor_models : dict addr) : M (dict addr) :=
  setitem rotor_models ("grid" +:+ str (n * n)) (new (RMGrid n)).

Definition init_rotor_models : M (dict addr) :=
  rotor_models <- setitem [] "centre" (new RMCentre) ;;
  rotor_models <- setitem rotor_models "stencil" (new RMStencil) ;;
  rotor_models <- for_each (range 3 13) register_ring rotor_models ;;
  rotor_models <- setitem rotor_models "two_rings9"
                    (new (RMRings [4; 4] (Some [45; 0]))) ;;
  rotor_models <- setitem rotor_models "two_rings13" (new (RMRings [4; 8] None)) ;;
  rotor_models <- setitem rotor_models "three_rings19" (new (RMRings [4; 6; 8] None)) ;;
  rotor_models <- setitem rotor_models "four_rings29" (new (RMRings [4; 6; 8; 10] None)) ;;
  rotor_models <- for_each (range 2 11) register_grid rotor_models ;;
  rotor_models <- setitem rotor_models "grid400" (new (RMGrid 20)) ;;
  rotor_models <- setitem rotor_models "grid10000" (new (RMGrid 100)) ;;
  ret rotor_models.

Definition init_turbine_models (ct_power_curve_file : option string) : M (dict addr) :=
  turbine_models <-
    match ct_power_curve_file with
    | Some file => setitem [] "ct_P_curves" (new (Ws2PCt file))
    | None => ret []
    end ;;
  turbine_models <- setitem turbine_models "yaw2yawm" (new (Yaw2Yawm true false)) ;;
  turbine_models <- setitem turbine_models "yawm2yaw" (new (Yawm2Yaw true false)) ;;
  turbine_models <- setitem turbine_models "zeroOutsideFarm" (new ZeroOutsideFarm) ;;
  ret turbine_models.

Definition init_turbine_orders : M (dict addr) :=
  turbine_orders <- setitem [] "farm" (new FarmTurbineOrder) ;;
  turbine_orders <- setitem turbine_orders "amb_wind" (new (WindTurbineOrder true)) ;;
  turbine_orders <- setitem turbine_orders "wake_wind" (new (WindTurbineOrder false)) ;;
  turbine_orders <- setitem turbine_orders "wake_frame" (new WakeFrameTurbineOrder) ;;
  ret turbine_orders.

Definition init_controllers : M (dict addr) :=
  controllers <- setitem [] "default" (new WTCDefault) ;;
  ret controllers.

Definition init_wake_models : M (dict addr) :=
  wake_models <- setitem [] "Jensen" (new (WMJensen None)) ;;
  wake_models <- setitem wake_models "Jensen007" (new (WMJensen (Some (Dec 7 (-2))))) ;;
  wake_models <- setitem wake_models "Frandsen" (new WMFrandsen) ;;
  wake_models <- setitem wake_models "Bastankhah" (new (WMBastankhah None)) ;;
  wake_models <- setitem wake_models "Bastankhah_smear3"
                   (new (WMBastankhah (Some (Dec 3 0)))) ;;
  wake_models <- setitem wake_models "PorteAgel" (new WMPorteAgel) ;;
  wake_models <- setitem wake_models "Botasso" (new WMBotasso) ;;
  wake_models <- setitem wake_models "Ishihara_wind" (new WMIshiharaWind) ;;
  wake_models <- setitem wake_models "Ishihara_ti" (new WMIshiharaTI) ;;
  wake_models <- setitem wake_models "IEC_TI_2005" (new WMIECTI2005) ;;
  wake_models <- setitem wake_models "IEC_TI_2019" (new WMIECTI2019) ;;
  wake_models <- setitem wake_models "CrespoHernandez" (new WMTICrespoHernandez) ;;
  ret wake_models.

(** The body of the loop that adds the no-partial-wakes variants. *)
Definition add_nopartial_model (mname : string) (wake_models : dict addr)
  : M (dict addr) :=
  m <- getitem wake_models mname ;;
  pw <- get_partial_wakes m ;;
  if pw : bool then
    let mname2 := mname +:+ "_rotor" in
    wake_models <- setitem wake_models mname2 (deepcopy m) ;;
    m2 <- getitem wake_models mname2 ;;
    _ <- set_partial_wakes m2 false ;;
    ret wake_models
  else ret wake_models.

Definition add_nopartial_models (wake_models : dict addr) : M (dict addr) :=
  let wmodels := dict_keys wake_models in
  for_each wmodels add_nopartial_model wake_models.

Definition init_wake_superp : M (dict addr) :=
  wake_superp <- setitem [] "ti_linear" (new (TISuperpCollection "linear")) ;;
  wake_superp <- setitem wake_superp "ti_quadratic" (new (TISuperpCollection "quadratic")) ;;
  wake_superp <- setitem wake_superp "ti_max" (new (TISuperpCollection "max")) ;;
  wake_superp <- setitem wake_superp "wind_linear" (new (WindSuperpLinear false false)) ;;
  wake_superp <- setitem wake_superp "wind_linear_amb" (new (WindSuperpLinear true false)) ;;
  wake_superp <- setitem wake_superp "wind_linear_lim" (new (WindSuperpLinear false true)) ;;
  wake_superp <- setitem wake_superp "wind_linear_amb_lim"
                   (new (WindSuperpLinear true true)) ;;
  wake_superp <- setitem wake_superp "wind_quadratic"
                   (new (WindSuperpQuadratic false false)) ;;
  wake_superp <- setitem wake_superp "wind_quadratic_amb"
                   (new (WindSuperpQuadratic true false)) ;;
  wake_superp <- setitem wake_superp "wind_quadratic_lim"
                   (new (WindSuperpQuadratic false true)) ;;
  wake_superp <- setitem wake_superp "wind_quadratic_amb_lim"
                   (new (WindSuperpQuadratic true true)) ;;
  wake_superp <- setitem wake_superp "wind_product" (new WindSuperpProduct) ;;
  ret wake_superp.

Definition init_wake_frames : M (dict addr) :=
  wake_frames <- setitem [] "amb_wind" (new AmbientWindFrame) ;;
  wake_frames <- setitem wake_frames "rotor_wind" (new RotorWindFrame) ;;
  wake_frames <- setitem wake_frames "yaw_deflection" (new YawDeflectionFrame) ;;
  wake_frames <- setitem wake_frames "streamlines" (new StreamlineFrame) ;;
  ret wake_frames.

Definition init_farm_calc_data_models : M (dict addr) :=
  farm_calc_data_models <- setitem [] "cables_mst" (new CablesMST) ;;
  ret farm_calc_data_models.

(** The vertical profiles are stored by class name: [C.__name__] is the
    identifier of the class [C]. *)
Definition init_vert_profiles : dict string :=
  let vert_profiles := dict_set "ws_abl_log_neutral" "ABLLogNeutralWsProfile" [] in
  let vert_profiles := dict_set "ws_abl_log_stable" "ABLLogStableWsProfile" vert_profiles in
  let vert_profiles := dict_set "ws_abl_log_unstable" "ABLLogUnstableWsProfile" vert_profiles in
  let vert_profiles := dict_set "ws_abl_log" "ABLLogWsProfile" vert_profiles in
  vert_profiles.

(** [ModelBook(ct_power_curve_file)]. *)
Definition init (ct_power_curve_file : option string) : M ModelBook :=
  let amb_states_models := [] in
  rotor_models <- init_rotor_models ;;
  turbine_models <- init_turbine_models ct_power_curve_file ;;
  turbine_orders <- init_turbine_orders ;;
  controllers <- init_controllers ;;
  wake_models <- init_wake_models ;;
  wake_models <- add_nopartial_models wake_models ;;
  wake_superp <- init_wake_superp ;;
  wake_frames <- init_wake_frames ;;
  farm_calc_data_models <- init_farm_calc_data_models ;;
  let vert_profiles := init_vert_profiles in
  ret (Book amb_states_models rotor_models turbine_models turbine_orders
            controllers wake_models wake_superp wake_frames
            farm_calc_data_models vert_profiles).

(** *** [ModelBook.reduce] *)

(** [if not wm in mdict: mdict[wm] = mdict0[wm]]. *)
Definition add_ref (mdict0 : dict addr) (wm : string) (mdict : dict addr)
  : M (dict addr) :=
  if dict_mem wm mdict then ret mdict
  else setitem mdict wm (getitem mdict0 wm).

(** The body of [for t in wind_farm.turbines]. *)
Definition add_turbine (ty : ttyp) (mdict0 : dict addr) (t : Turbine)
    (mdict : dict addr) : M (dict addr) :=
  if is_sequence ty then
    for_each (info_keys ty t) (add_ref mdict0) mdict
  else
    let wm := info_key ty t in
    add_ref mdict0 wm mdict.

(** The body of [for mi, mtyp in enumerate(mtyps)]. *)
Definition reduce_attr (self : ModelBook) (turbines : list Turbine)
    (ix : nat * mtyp) (mbook : ModelBook) : M ModelBook :=
  let (mi, mt) := ix in
  ty <- match ttyps !! mi with
        | Some ty => ret ty
        | None => raise IndexError
        end ;;
  let mdict0 := get_attr mt self in
  mdict <- for_each turbines (add_turbine ty mdict0) [] ;;
  ret (set_attr mt mdict mbook).

(** [enumerate(xs)]. *)
Definition enumerate {A} (xs : list A) : list (nat * A) :=
  combine (seq 0 (length xs)) xs.

Definition reduce (self : ModelBook) (turbines : list Turbine) : M ModelBook :=
  mbook <- init None ;;
  let mbook := set_wake_superp (wake_superp self) mbook in
  let mbook := set_turbine_orders (turbine_orders self) mbook in
  mbook <- for_each (enumerate mtyps) (reduce_attr self turbines) mbook ;;
  ret mbook.

(** ** Vocabulary of the proofs *)

(** What a statement returns when it runs on the empty heap. *)
Definition at_nil {A} (c : M (dict A)) : dict A * heap :=
  match c [] with
  | (Ok d, l) => (d, l)
  | (Err _, l) => ([], l)
  end.

End Source.

(** A dict whose values are moved by [n] addresses. *)
Definition shift (n : nat) (d : dict addr) : dict addr :=
  map (fun kv => (fst kv, n + snd kv)) d.

(** The dict that binds the keys to consecutive addresses from [n] on. *)
Fixpoint layout (n : nat) (keys : list string) : dict addr :=
  match keys with
  | [] => []
  | k :: keys' => (k, n) :: layout (S n) keys'
  end.

(** The key of the no-partial-wakes variant. *)
Definition rotor_key (k : string) : string := k +:+ "_rotor".

(** The entries of a registration list whose constructor sets the flag. *)
Definition flagged (flag0 : flm -> bool) (regs : list (string * flm))
  : list (string * flm) :=
  List.filter (fun kc => flag0 (snd kc)) regs.

(** The no-partial-wakes instance derived from a registration, and its key. *)
Definition derived (kc : string * flm) : instance := Instance (snd kc) false.
Definition rotor_key_of (kc : string * flm) : string := rotor_key (fst kc).

(** The instance that a registration constructs. *)
Definition fresh_of (flag0 : flm -> bool) (kc : string * flm) : instance :=
  fresh flag0 (snd kc).

(** The wake models that [__init__] registers by name, with their
    constructor calls, read off a run of that section. *)
Definition wake_regs : list (string * flm) :=
  Eval vm_compute in
    (let (d, l) := at_nil (init_wake_models (fun _ => false)) in
     combine (dict_keys d) (map made_by l)).

(** A section of [__init__] that behaves on every heap as on the empty
    one, with its instances put at the end of the heap. *)
Definition relocatable (c : M (dict addr)) : Prop :=
  forall h : heap,
    c h = (Ok (shift (length h) (fst (at_nil c))), h ++ snd (at_nil c)).

(** The instances that [ModelBook(file)] creates, in order of creation. *)
Definition init_heap (flag0 : flm -> bool) (file : option string) : heap :=
  snd (at_nil (init_rotor_models flag0))
  ++ snd (at_nil (init_turbine_models flag0 file))
  ++ snd (at_nil (init_turbine_orders flag0))
  ++ snd (at_nil (init_controllers flag0))
  ++ map (fresh_of flag0) wake_regs
  ++ map derived (flagged flag0 wake_regs)
  ++ snd (at_nil (init_wake_superp flag0))
  ++ snd (at_nil (init_wake_frames flag0))
  ++ snd (at_nil (init_farm_calc_data_models flag0)).

(** The book that [ModelBook(file)] returns on a heap of [n] objects. *)
Definition init_book (flag0 : flm -> bool) (file : option string) (n : nat)
  : ModelBook :=
  let n1 := n + length (snd (at_nil (init_rotor_models flag0))) in
  let n2 := n1 + length (snd (at_nil (init_turbine_models flag0 file))) in
  let n3 := n2 + length (snd (at_nil (init_turbine_orders flag0))) in
  let n4 := n3 + length (snd (at_nil (init_controllers flag0))) in
  let n5 := n4 + length wake_regs in
  let n6 := n5 + length (flagged flag0 wake_regs) in
  let n7 := n6 + length (snd (at_nil (init_wake_superp flag0))) in
  let n8 := n7 + length (snd (at_nil (init_wake_frames flag0))) in
  Book []
       (shift n (fst (at_nil (init_rotor_models flag0))))
       (shift n1 (fst (at_nil (init_turbine_models flag0 file))))
       (shift n2 (fst (at_nil (init_turbine_orders flag0))))
       (shift n3 (fst (at_nil (init_controllers flag0))))
       (layout n4 (map fst wake_regs)
          ++ layout n5 (map rotor_key_of (flagged flag0 wake_regs)))
       (shift n6 (fst (at_nil (init_wake_superp flag0))))
       (shift n7 (fst (at_nil (init_wake_frames flag0))))
       (shift n8 (fst (at_nil (init_farm_calc_data_models flag0))))
       init_vert_profiles.


(** The inner loops of [reduce] for one attribute, read as a function on
    the keys met in order: they never touch the heap. *)
Fixpoint collect (mdict0 : dict addr) (ks : list string) (mdict : dict addr)
  : result (dict addr) :=
  match ks with
  | [] => Ok mdict
  | wm :: ks' =>
      if dict_mem wm mdict then collect mdict0 ks' mdict
      else match dict_get wm mdict0 with
           | Some v => collect mdict0 ks' (dict_set wm v mdict)
           | None => Err (KeyError wm)
           end
  end.

(** All keys that the turbines reference for [ty], in farm order. *)
Definition all_refs (ty : ttyp) (turbines : list Turbine) : list string :=
  flat_map (refs ty) turbines.

(** [ttyps[mi]] for the position [mi] of [mt] in [mtyps]. *)
Definition ttyp_of (mt : mtyp) : ttyp :=
  match mt with
  | Mrotor_models => Trotor_model
  | Mturbine_models => Tturbine_models
  | Mcontrollers => Tcontroller
  | Mwake_models => Twake_models
  | Mwake_frames => Twake_frame
  end.

(** A turbine references [k] for the attribute [mt]. *)
Definition references (mt : mtyp) (t : Turbine) (k : string) : Prop :=
  k ∈ refs (ttyp_of mt) t.

(** Some turbine references a key that the source book does not have. *)
Definition missing (self : ModelBook) (turbines : list Turbine)
    (mt : mtyp) (k : string) : Prop :=
  (exists t, t ∈ turbines /\ references mt t k)
  /\ dict_get k (get_attr mt self) = None.

(** What [reduce] rebuilds for the attribute [mt]. *)
Definition rebuilt (self : ModelBook) (turbines : list Turbine) (mt : mtyp)
  : result (dict addr) :=
  collect (get_attr mt self) (all_refs (ttyp_of mt) turbines) [].

(** [reduce] read as a function: [b0] is the book that [ModelBook()]
    returned at the start of the call. *)
Definition reduce_pure (b0 self : ModelBook) (turbines : list Turbine)
  : result ModelBook :=
  match rebuilt self turbines Mrotor_models with
  | Err e => Err e
  | Ok d1 =>
  match rebuilt self turbines Mturbine_models with
  | Err e => Err e
  | Ok d2 =>
  match rebuilt self turbines Mcontrollers with
  | Err e => Err e
  | Ok d3 =>
  match rebuilt self turbines Mwake_models with
  | Err e => Err e
  | Ok d4 =>
  match rebuilt self turbines Mwake_frames with
  | Err e => Err e
  | Ok d5 =>
      Ok (Book (amb_states_models b0) d1 d2 (turbine_orders self) d3 d4
               (wake_superp self) d5 (farm_calc_data_models b0)
               (vert_profiles b0))
  end end end end end.

(** The wake-model dict and the heap after the loop over [wmodels], for
    registrations [regs] made on a heap of [n] objects: the registered
    keys and instances come first, the derived ones follow. *)
Definition variants_dict (flag0 : flm -> bool) (regs : list (string * flm))
    (n : nat) : dict addr :=
  layout n (map fst regs)
    ++ layout (n + length regs) (map rotor_key_of (flagged flag0 regs)).

Definition variants_heap (flag0 : flm -> bool) (regs : list (string * flm))
    (hpre hpost : heap) : heap :=
  hpre ++ map (fresh_of flag0) regs ++ map derived (flagged flag0 regs) ++ hpost.

(** ** The rotor-model section as its description has it

    The description of the construction asks that a key which is already
    registered makes the construction fail with a construction error
    instead of replacing the entry.  The definitions below are the
    rotor-model section written that way: the registrations of the source
    in the same order, each through a registration that looks for the key
    first. *)

Inductive construction (A : Type) : Type :=
  | Constructed (a : A)
  | ConstructionError (key : string).
Arguments Constructed {A} a.
Arguments ConstructionError {A} key.

Definition FF (A : Type) : Type := heap -> construction A * heap.


Definition ff_bind {A B} (c : FF A) (k : A -> FF B) : FF B :=
  fun h => match c h with
           | (Constructed a, h') => k a h'
           | (ConstructionError key, h') => (ConstructionError key, h')
           end.

Notation "x <~ c ;; k" := (ff_bind c (fun x => k))
  (at level 100, c at next level, right associativity, only parsing).


(** [d[k] = flm.C(...)] that fails fast: a key that is in the dict is a
    construction error, and nothing is built. *)
Definition register_fail_fast (flag0 : flm -> bool) (d : dict addr)
    (k : string) (c : flm) : FF (dict addr) :=
  fun h => if dict_mem k d then (ConstructionError k, h)
           else (Constructed (dict_set k (length h) d), h ++ [fresh flag0 c]).


(** The keys under which [__init__] registers a wake model by name. *)
Definition named_wake_models (flag0 : flm -> bool) : list string :=
  dict_keys (fst (at_nil (init_wake_models flag0))).

(** The flag that the instance [o] stored under the wake-model key [K]
    carries when its registration is complete: for a model registered by
    name the flag that its constructor set, for a derived variant [False],
    which the statement after the copy assigns. *)
Definition registered_flag (flag0 : flm -> bool) (K : string) (o : instance)
  : bool :=
  if bool_decide (K ∈ named_wake_models flag0) then flag0 (made_by o) else false.

(** The keys of the ring family, for the ring counts 4 to 13. *)
Definition ring_keys : list string :=
  map (fun k => "ring" +:+ str k) (range 4 14).

(** ** Sample data *)

(** A choice of flags: the Jensen and Bastankhah models handle partial
    wakes, the others do not. *)
Definition sample_flags (c : flm) : bool :=
  match c with
  | WMJensen _ | WMBastankhah _ => true
  | _ => false
  end.

Definition empty_book : ModelBook := Book [] [] [] [] [] [] [] [] [] [].

(** [ModelBook()] on the empty heap. *)
Definition sample_book : ModelBook :=
  Eval vm_compute in
    match fst (init sample_flags None []) with Ok b => b | Err _ => empty_book end.

Definition sample_heap : heap :=
  Eval vm_compute in snd (init sample_flags None []).

(** Two turbines that share the controller, the wake frame and one wake
    model. *)
Definition sample_farm : list Turbine :=
  [ {| info_rotor_model := "centre"; info_turbine_models := [];
       info_controller := "default"; info_wake_models := ["Jensen"];
       info_wake_frame := "amb_wind" |};
    {| info_rotor_model := "grid400"; info_turbine_models := ["yaw2yawm"];
       info_controller := "default";
       info_wake_models := ["Jensen_rotor"; "Jensen"];
       info_wake_frame := "amb_wind" |} ].

(** [sample_book.reduce(sample_farm)]. *)
Definition sample_reduced : ModelBook :=
  Eval vm_compute in
    match fst (reduce sample_flags sample_book sample_farm sample_heap) with
    | Ok b => b
    | Err _ => empty_book
    end.

Definition sample_reduced_heap : heap :=
  Eval vm_compute in snd (reduce sample_flags sample_book sample_farm sample_heap).

(** A turbine whose rotor model is not in the book. *)
Definition stray_farm : list Turbine :=
  [ {| info_rotor_model := "ring3"; info_turbine_models := [];
       info_controller := "default"; info_wake_models := ["Jensen"];
       info_wake_frame := "amb_wind" |} ].

(** Two books and a turbine for which the key [x] is missing from one
    attribute only: the rotor models of the first book, the controllers of
    the second. *)
Definition book_without_rotor : ModelBook :=
  {| amb_states_models := []; rotor_models := []; turbine_models := [];
     turbine_orders := []; controllers := [("x", 0)]; wake_models := [];
     wake_superp := []; wake_frames := [("x", 0)];
     farm_calc_data_models := []; vert_profiles := [] |}.

Definition book_without_controller : ModelBook :=
  {| amb_states_models := []; rotor_models := [("x", 0)]; turbine_models := [];
     turbine_orders := []; controllers := []; wake_models := [];
     wake_superp := []; wake_frames := [("x", 0)];
     farm_calc_data_models := []; vert_profiles := [] |}.

Definition turbine_x : Turbine :=
  {| info_rotor_model := "x"; info_turbine_models := [];
     info_controller := "x"; info_wake_models := [];
     info_wake_frame := "x" |}.

(** ** [ModelBook.__repr__] *)

(** The newline of the Python literals. *)
Definition nl : string := String (Ascii.ascii_of_nat 10) "".

Section Repr.

(** [str(m)] of a model instance, which the flappy classes define. *)
Variable model_str : instance -> string.

(** [str(m)] for the instance at address [m]. *)
Definition str_of (m : addr) : M string :=
  fun h => match h !! m with
           | Some o => (Ok (model_str o), h)
           | None => (Err (BadReference m), h)
           end.

(** The block that follows a title: the marker for an empty dict, one
    line per item otherwise. *)
Definition repr_items (d : dict addr) (out : string) : M string :=
  if Nat.eqb (length d) 0 then
    ret (out +:+ (nl +:+ "  (None)"))
  else
    for_each d (fun item out =>
        let (mname, m) := item in
        s <- str_of m ;;
        ret (out +:+ ((((nl +:+ "  ") +:+ mname) +:+ " -- ") +:+ s)))
      out.

Definition repr (self : ModelBook) : M string :=
  let out := "Rotor models:" in
  out <- repr_items (rotor_models self) out ;;
  let out := out +:+ (nl +:+ "Controllers:") in
  out <- repr_items (controllers self) out ;;
  let out := out +:+ (nl +:+ "Turbine models:") in
  out <- repr_items (turbine_models self) out ;;
  let out := out +:+ (nl +:+ "Wake centreline models:") in
  out <- repr_items (wake_frames self) out ;;
  let out := out +:+ (nl +:+ "Wake models:") in
  out <- repr_items (wake_models self) out ;;
  ret out.

(** The items of a dict with the descriptions of their instances, when
    every address is that of an object. *)
Fixpoint described (h : heap) (d : dict addr) : option (list (string * string)) :=
  match d with
  | [] => Some []
  | (k, a) :: d' =>
      match h !! a, described h d' with
      | Some o, Some es => Some ((k, model_str o) :: es)
      | _, _ => None
      end
  end.

End Repr.

(** The listing as its description has it: a title per section, then one
    line per entry with the key and the description of the model, or the
    marker of an empty section; the sections are separated by newlines. *)
Definition listing_line (entry : string * string) : string :=
  nl +:+ "  " +:+ fst entry +:+ " -- " +:+ snd entry.

Definition listing_section (title : string) (entries : list (string * string))
  : string :=
  title +:+ match entries with
            | [] => nl +:+ "  (None)"
            | _ => String.concat "" (map listing_line entries)
            end.

Definition listing (rotor ctrl tmodels frames wakes : list (string * string))
  : string :=
  String.concat nl
    [ listing_section "Rotor models:" rotor;
      listing_section "Controllers:" ctrl;
      listing_section "Turbine models:" tmodels;
      listing_section "Wake centreline models:" frames;
      listing_section "Wake models:" wakes ].

(** ** More vocabulary *)

(** The keys of [ks] in the order of their first occurrence, without
    those of [seen]. *)
Fixpoint first_occurrences (seen ks : list string) : list string :=
  match ks with
  | [] => []
  | k :: ks' =>
      if bool_decide (k ∈ seen) then first_occurrences seen ks'
      else k :: first_occurrences (seen ++ [k]) ks'
  end.

(** The referenced keys that the source dict of [mt] does not have, in
    the order in which [reduce] meets them. *)
Definition missing_refs (self : ModelBook) (turbines : list Turbine) (mt : mtyp)
  : list string :=
  List.filter (fun k => negb (dict_mem k (get_attr mt self)))
    (all_refs (ttyp_of mt) turbines).

(** The first missing reference on the way of [reduce] through the
    attributes and the turbines. *)
Definition first_missing (self : ModelBook) (turbines : list Turbine)
  : option string :=
  head (flat_map (missing_refs self turbines) mtyps).

(** Two dicts bind the same keys to the same values. *)
Definition same_content (d1 d2 : dict addr) : Prop :=
  forall k, dict_get k d1 = dict_get k d2.

(** The addresses that a book holds, dict by dict in the order in which
    [__init__] fills them. *)
Definition book_addrs (b : ModelBook) : list addr :=
  map snd (rotor_models b) ++ map snd (turbine_models b)
  ++ map snd (turbine_orders b) ++ map snd (controllers b)
  ++ map snd (wake_models b) ++ map snd (wake_superp b)
  ++ map snd (wake_frames b) ++ map snd (farm_calc_data_models b).

(** A section of registrations binds its keys to the instances it
    creates, in the order of creation. *)
Definition in_creation_order (c : M (dict addr)) : Prop :=
  map snd (fst (at_nil c)) = seq 0 (length (snd (at_nil c))).

(** The entries of a dict with the constructor calls that built their
    instances. *)
Definition constructed (h : heap) (d : dict addr) : list (string * option flm) :=
  map (fun kv => (fst kv, made_by <$> h !! snd kv)) d.

(** The flag of the instance stored under the wake-model key [K]. *)
Definition flag_of (b : ModelBook) (h : heap) (K : string) : bool :=
  match dict_get K (wake_models b) with
  | Some a => match h !! a with
              | Some o => partial_wakes o
              | None => false
              end
  | None => false
  end.

(** A string ends with ["_rotor"]. *)
Fixpoint ends_rotor (s : string) : bool :=
  String.eqb s "_rotor"
  || match s with
     | EmptyString => false
     | String _ s' => ends_rotor s'
     end.

(** The keys of the wind superposition models, by their two switches. *)
Definition superp_key (family : string) (use_ambws limit_wake : bool) : string :=
  family +:+ (if use_ambws then "_amb" else "")
         +:+ (if limit_wake then "_lim" else "").

(** The sides of the grid rotor models. *)
Definition grid_sides : list nat := range 2 11 ++ [20; 100].

(** ** More sample data *)

(** A description of the instances for the listings. *)
Definition sample_str (o : instance) : string :=
  if partial_wakes o then "partial" else "model".

Definition sample_file : string := "curves.csv".

Definition sample_book_with_curves : ModelBook :=
  Eval vm_compute in
    match fst (init sample_flags (Some sample_file) []) with
    | Ok b => b
    | Err _ => empty_book
    end.

Definition sample_heap_with_curves : heap :=
  Eval vm_compute in snd (init sample_flags (Some sample_file) []).

(** The entries of the sample reduced book with their descriptions. *)
Definition sample_entries (mt : mtyp) : list (string * string) :=
  default [] (described sample_str sample_reduced_heap
                (get_attr mt sample_reduced)).

(** The first turbine of the sample farm alone, and the farm in the other
    order. *)
Definition sample_subfarm : list Turbine := firstn 1 sample_farm.
Definition sample_farm_reversed : list Turbine := rev sample_farm.

(** * Facts *)

(** ** Dicts *)

Section DictFacts.
Context {V : Type}.
Implicit Types (d : dict V) (k : string) (v : V).

Lemma dict_mem_true k d : dict_mem k d = true <-> exists v, dict_get k d = Some v.
Proof.
  unfold dict_mem. destruct (dict_get k d) as [v|]; split; eauto; try discriminate.
  intros [v Hv]. discriminate.
Qed.

Lemma dict_mem_false k d : dict_mem k d = false <-> dict_get k d = None.
Proof. unfold dict_mem. destruct (dict_get k d); split; congruence. Qed.

Lemma dict_get_keys k d : k ∈ dict_keys d <-> exists v, dict_get k d = Some v.
Proof.
  induction d as [|[k' v'] d IH]; simpl.
  - split; [intros H; inversion H | intros [v Hv]; discriminate].
  - destruct (String.eqb_spec k k') as [->|Hne].
    + split; [eauto | intros _; left].
    + rewrite elem_of_cons, IH. split; [intros [?|?]; [congruence | done] | auto].
Qed.

Lemma dict_mem_keys k d : dict_mem k d = true <-> k ∈ dict_keys d.
Proof. rewrite dict_mem_true, dict_get_keys. reflexivity. Qed.

Lemma dict_get_None_keys k d : dict_get k d = None <-> k ∉ dict_keys d.
Proof.
  rewrite dict_get_keys. destruct (dict_get k d) as [v|]; split; try done.
  - intros H; destruct H; eauto.
  - intros _ [v' ?]; discriminate.
Qed.

Lemma dict_get_app k d1 d2 :
  dict_get k (d1 ++ d2)
  = match dict_get k d1 with Some v => Some v | None => dict_get k d2 end.
Proof.
  induction d1 as [|[k' v'] d1 IH]; simpl; [done|].
  destruct (String.eqb k k'); done.
Qed.

Lemma dict_set_fresh k v d : dict_get k d = None -> dict_set k v d = d ++ [(k, v)].
Proof.
  induction d as [|[k' v'] d IH]; simpl; [done|].
  destruct (String.eqb k k'); [discriminate|]. intros H. by rewrite IH.
Qed.

Lemma dict_get_set_eq k v d : dict_get k (dict_set k v d) = Some v.
Proof.
  induction d as [|[k' v'] d IH]; simpl.
  - by rewrite String.eqb_refl.
  - destruct (String.eqb k k') eqn:E; simpl; rewrite E; done.
Qed.

Lemma dict_get_set_ne k k' v d :
  k <> k' -> dict_get k' (dict_set k v d) = dict_get k' d.
Proof.
  intros Hne. induction d as [|[k1 v1] d IH]; simpl.
  - destruct (String.eqb_spec k' k); congruence.
  - destruct (String.eqb_spec k k1) as [->|]; simpl.
    + destruct (String.eqb_spec k' k1); congruence.
    + by rewrite IH.
Qed.

Lemma dict_keys_app d1 d2 : dict_keys (d1 ++ d2) = dict_keys d1 ++ dict_keys d2.
Proof. apply map_app. Qed.

(** With distinct keys, a stored key has exactly one entry. *)
Lemma dict_count_NoDup k d :
  NoDup (dict_keys d) -> k ∈ dict_keys d -> dict_count k d = 1.
Proof.
  unfold dict_count. induction d as [|[k' v'] d IH]; simpl.
  - intros _ H. inversion H.
  - rewrite NoDup_cons. intros [Hk' Hnd] Hin.
    destruct (String.eqb_spec k k') as [->|Hne]; simpl.
    + f_equal. clear -Hk'. induction d as [|[k1 v1] d IH]; simpl; [done|].
      simpl in Hk'. rewrite not_elem_of_cons in Hk'. destruct Hk' as [Hne Hk'].
      destruct (String.eqb_spec k' k1); [congruence | auto].
    + apply IH; [done|]. apply elem_of_cons in Hin as [?|?]; [congruence | done].
Qed.

End DictFacts.

(** ** The inner loops of [reduce] *)

Lemma bind_ok {A B} (c : M A) (k : A -> M B) h a h' :
  c h = (Ok a, h') -> bind c k h = k a h'.
Proof. unfold bind. by intros ->. Qed.

Lemma bind_err {A B} (c : M A) (k : A -> M B) h e h' :
  c h = (Err e, h') -> bind c k h = (Err e, h').
Proof. unfold bind. by intros ->. Qed.

Lemma add_ref_run mdict0 wm mdict h :
  add_ref mdict0 wm mdict h = (collect mdict0 [wm] mdict, h).
Proof.
  unfold add_ref, setitem, getitem, bind. simpl.
  destruct (dict_mem wm mdict); [done|].
  destruct (dict_get wm mdict0); done.
Qed.

Lemma collect_app mdict0 ks1 ks2 mdict :
  collect mdict0 (ks1 ++ ks2) mdict
  = match collect mdict0 ks1 mdict with
    | Ok mdict' => collect mdict0 ks2 mdict'
    | Err e => Err e
    end.
Proof.
  revert mdict. induction ks1 as [|k ks1 IH]; intros mdict; simpl; [done|].
  destruct (dict_mem k mdict); [apply IH|].
  destruct (dict_get k mdict0); [apply IH | done].
Qed.

Lemma for_each_add_ref mdict0 ks mdict h :
  for_each ks (add_ref mdict0) mdict h = (collect mdict0 ks mdict, h).
Proof.
  revert mdict. induction ks as [|k ks IH]; intros mdict; [done|].
  change (k :: ks) with ([k] ++ ks). rewrite collect_app. simpl for_each.
  unfold bind. rewrite add_ref_run.
  destruct (collect mdict0 [k] mdict); [apply IH | done].
Qed.

Lemma add_turbine_run ty mdict0 t mdict h :
  add_turbine ty mdict0 t mdict h = (collect mdict0 (refs ty t) mdict, h).
Proof.
  unfold add_turbine, refs. destruct (is_sequence ty).
  - apply for_each_add_ref.
  - apply add_ref_run.
Qed.

Lemma for_each_add_turbine ty mdict0 turbines mdict h :
  for_each turbines (add_turbine ty mdict0) mdict h
  = (collect mdict0 (all_refs ty turbines) mdict, h).
Proof.
  revert mdict. induction turbines as [|t ts IH]; intros mdict; [done|].
  unfold all_refs. simpl. rewrite collect_app. unfold bind.
  rewrite add_turbine_run.
  destruct (collect mdict0 (refs ty t) mdict); [apply IH | done].
Qed.

(** What a successful run of the loops has built. *)
Lemma collect_ok mdict0 ks mdict mdict' :
  collect mdict0 ks mdict = Ok mdict' ->
  (forall k, k ∈ dict_keys mdict' <-> k ∈ dict_keys mdict \/ k ∈ ks)
  /\ (NoDup (dict_keys mdict) -> NoDup (dict_keys mdict'))
  /\ ((forall k, k ∈ dict_keys mdict -> dict_get k mdict = dict_get k mdict0) ->
      forall k, k ∈ dict_keys mdict' -> dict_get k mdict' = dict_get k mdict0).
Proof.
  revert mdict. induction ks as [|wm ks IH]; intros mdict; simpl.
  - intros [= <-]. split; [|done]. intros k. rewrite elem_of_nil. tauto.
  - destruct (dict_mem wm mdict) eqn:Hmem.
    + intros H. destruct (IH _ H) as (Hk & Hnd & Hag).
      split; [|done]. intros k. rewrite Hk, elem_of_cons.
      apply dict_mem_keys in Hmem. split; [tauto|].
      intros [?|[->|?]]; auto.
    + destruct (dict_get wm mdict0) as [v|] eqn:Hget; [|discriminate].
      apply dict_mem_false in Hmem.
      intros H. destruct (IH _ H) as (Hk & Hnd & Hag).
      rewrite (dict_set_fresh _ _ _ Hmem) in Hk, Hnd, Hag.
      rewrite dict_keys_app in Hk, Hnd, Hag. simpl in Hk, Hnd, Hag.
      split; [|split].
      * intros k. rewrite Hk, elem_of_app, list_elem_of_singleton, elem_of_cons. tauto.
      * intros Hnd0. apply Hnd. apply NoDup_app. split; [done|].
        split; [|apply NoDup_singleton].
        intros x Hx ->%list_elem_of_singleton.
        by apply dict_get_None_keys in Hmem.
      * intros Hag0. apply Hag. intros k.
        rewrite elem_of_app, list_elem_of_singleton, dict_get_app.
        intros [Hin| ->].
        -- apply dict_get_keys in Hin as [v' Hv']. rewrite Hv'.
           rewrite <- Hv'. apply Hag0. apply dict_get_keys. eauto.
        -- rewrite Hmem. simpl. by rewrite String.eqb_refl.
Qed.

(** A failure of the loops is the [KeyError] of a referenced key that the
    source dict does not have. *)
Lemma collect_err mdict0 ks mdict e :
  collect mdict0 ks mdict = Err e ->
  exists k, e = KeyError k /\ k ∈ ks /\ dict_get k mdict0 = None.
Proof.
  revert mdict. induction ks as [|wm ks IH]; intros mdict; simpl; [done|].
  destruct (dict_mem wm mdict).
  - intros (k & ? & ? & ?)%IH. exists k. rewrite elem_of_cons. auto.
  - destruct (dict_get wm mdict0) as [v|] eqn:Hget.
    + intros (k & ? & ? & ?)%IH. exists k. rewrite elem_of_cons. auto.
    + intros [= <-]. exists wm. rewrite elem_of_cons. auto.
Qed.

(** A referenced key that the source dict does not have is never skipped. *)
Lemma collect_missing mdict0 ks mdict k :
  (forall k', k' ∈ dict_keys mdict -> k' ∈ dict_keys mdict0) ->
  k ∈ ks -> dict_get k mdict0 = None ->
  exists e, collect mdict0 ks mdict = Err e.
Proof.
  revert mdict. induction ks as [|wm ks IH]; intros mdict Hsub Hin Hnone.
  - inversion Hin.
  - simpl. destruct (dict_mem wm mdict) eqn:Hmem.
    + apply elem_of_cons in Hin as [->|Hin]; [|by apply IH].
      apply dict_mem_keys, Hsub in Hmem. by apply dict_get_None_keys in Hnone.
    + destruct (dict_get wm mdict0) as [v|] eqn:Hget; [|eauto].
      apply elem_of_cons in Hin as [->|Hin]; [congruence|].
      apply IH; [|done..]. intros k'.
      apply dict_mem_false in Hmem. rewrite (dict_set_fresh _ _ _ Hmem).
      rewrite dict_keys_app, elem_of_app. simpl. rewrite list_elem_of_singleton.
      intros [?| ->]; [auto|]. apply dict_get_keys. eauto.
Qed.

(** The loops succeed when the source dict has every referenced key. *)
Lemma collect_total mdict0 ks mdict :
  (forall k, k ∈ ks -> k ∈ dict_keys mdict0) ->
  exists mdict', collect mdict0 ks mdict = Ok mdict'.
Proof.
  intros Hall. destruct (collect mdict0 ks mdict) as [d'|e] eqn:E; [eauto|].
  apply collect_err in E as (k & _ & Hin & Hnone).
  apply Hall in Hin. by apply dict_get_None_keys in Hnone.
Qed.

(** The loops read the source dict at the referenced keys only. *)
Lemma collect_ext m1 m2 ks mdict :
  (forall k, k ∈ ks -> dict_get k m1 = dict_get k m2) ->
  collect m1 ks mdict = collect m2 ks mdict.
Proof.
  revert mdict. induction ks as [|wm ks IH]; intros mdict Hag; simpl; [done|].
  rewrite (Hag wm) by left.
  assert (forall k, k ∈ ks -> dict_get k m1 = dict_get k m2)
    by (intros; apply Hag; by right).
  destruct (dict_mem wm mdict); [auto|]. destruct (dict_get wm m2); auto.
Qed.

Lemma collect_idem mdict0 ks mdict :
  collect mdict0 ks [] = Ok mdict -> collect mdict ks [] = Ok mdict.
Proof.
  intros H. rewrite <- H. apply collect_ext.
  destruct (collect_ok _ _ _ _ H) as (Hk & _ & Hag).
  intros k Hin. apply Hag.
  - intros k' Hk'. inversion Hk'.
  - apply Hk. by right.
Qed.

(** ** Layouts and keys *)

Lemma layout_app n ks1 ks2 :
  layout n (ks1 ++ ks2) = layout n ks1 ++ layout (n + length ks1) ks2.
Proof.
  revert n. induction ks1 as [|k ks1 IH]; intros n; simpl.
  - by rewrite Nat.add_0_r.
  - rewrite IH. do 3 f_equal. lia.
Qed.

Lemma dict_keys_layout n ks : dict_keys (layout n ks) = ks.
Proof.
  revert n. induction ks as [|k ks IH]; intros n; simpl; [done|].
  f_equal. apply IH.
Qed.

Lemma shift_layout n m ks : shift n (layout m ks) = layout (n + m) ks.
Proof.
  revert m. induction ks as [|k ks IH]; intros m; simpl; [done|].
  rewrite IH. do 2 f_equal. lia.
Qed.


Lemma dict_get_layout_middle n ks1 k ks2 :
  NoDup (ks1 ++ k :: ks2) ->
  dict_get k (layout n (ks1 ++ k :: ks2)) = Some (n + length ks1).
Proof.
  revert n. induction ks1 as [|k1 ks1 IH]; intros n; simpl.
  - intros _. rewrite String.eqb_refl. f_equal. lia.
  - rewrite NoDup_cons. intros [Hk1 Hnd].
    destruct (String.eqb_spec k k1) as [->|Hne].
    + destruct Hk1. apply elem_of_app. right. left.
    + rewrite IH by done. f_equal. lia.
Qed.

Lemma string_length_app (s1 s2 : string) :
  String.length (s1 +:+ s2) = String.length s1 + String.length s2.
Proof. induction s1 as [|a s1 IH]; simpl; [done|]. by rewrite IH. Qed.

Lemma string_app_inj_l (s k1 k2 : string) : k1 +:+ s = k2 +:+ s -> k1 = k2.
Proof.
  revert k2. induction k1 as [|a k1 IH]; intros [|b k2] H; simpl in H; [done| | |].
  - apply (f_equal String.length) in H.
    rewrite !string_length_app in H. simpl in H. lia.
  - apply (f_equal String.length) in H.
    rewrite !string_length_app in H. simpl in H. lia.
  - injection H as -> H. f_equal. by apply IH.
Qed.

Lemma rotor_key_inj k1 k2 : rotor_key k1 = rotor_key k2 -> k1 = k2.
Proof. apply string_app_inj_l. Qed.

Lemma flagged_app flag0 (l1 l2 : list (string * flm)) :
  flagged flag0 (l1 ++ l2) = flagged flag0 l1 ++ flagged flag0 l2.
Proof. apply List.filter_app. Qed.

(** ** Construction *)

Section Construction.
Variable flag0 : flm -> bool.

Lemma new_app c (h l : heap) :
  new flag0 c (h ++ l) = (Ok (length h + length l), h ++ (l ++ [fresh flag0 c])).
Proof. unfold new. rewrite length_app, app_assoc. reflexivity. Qed.

Lemma bind_assoc_at {A B C} (c : M A) (f : A -> M B) (g : B -> M C) h :
  bind (bind c f) g h = bind c (fun x => bind (f x) g) h.
Proof. unfold bind. destruct (c h) as [[a|e] h']; reflexivity. Qed.

Lemma bind_setitem_new {B} d k c (K : dict addr -> M B) (h l : heap) :
  bind (setitem d k (new flag0 c)) K (h ++ l)
  = K (dict_set k (length h + length l) d) (h ++ (l ++ [fresh flag0 c])).
Proof. unfold setitem. unfold bind, ret. rewrite new_app. reflexivity. Qed.

Lemma bind_ret_at {A B} (a : A) (K : A -> M B) h : bind (ret a) K h = K a h.
Proof. reflexivity. Qed.

(** Runs a section of registrations on the heap [h ++ []], one
    constructor call after the other, and compares the outcome with the
    run on the empty heap. *)
Ltac run_block hd :=
  intros h; rewrite <- (app_nil_r h) at 1; unfold hd at 1;
  unfold register_ring, register_grid;
  cbn [for_each range seq Nat.sub];
  repeat first [ rewrite bind_assoc_at | rewrite bind_setitem_new
               | rewrite bind_ret_at ];
  vm_compute; reflexivity.

Lemma init_rotor_models_run : relocatable (init_rotor_models flag0).
Proof. run_block init_rotor_models. Qed.

Lemma init_turbine_models_run file : relocatable (init_turbine_models flag0 file).
Proof. destruct file; run_block init_turbine_models. Qed.

Lemma init_turbine_orders_run : relocatable (init_turbine_orders flag0).
Proof. run_block init_turbine_orders. Qed.

Lemma init_controllers_run : relocatable (init_controllers flag0).
Proof. run_block init_controllers. Qed.

Lemma init_wake_models_run : relocatable (init_wake_models flag0).
Proof. run_block init_wake_models. Qed.

Lemma init_wake_superp_run : relocatable (init_wake_superp flag0).
Proof. run_block init_wake_superp. Qed.

Lemma init_wake_frames_run : relocatable (init_wake_frames flag0).
Proof. run_block init_wake_frames. Qed.

Lemma init_farm_calc_data_models_run :
  relocatable (init_farm_calc_data_models flag0).
Proof. run_block init_farm_calc_data_models. Qed.

(** One turn of the loop over [wmodels]. *)
Lemma add_nopartial_model_run mname d (h : heap) a o :
  dict_get mname d = Some a -> h !! a = Some o ->
  add_nopartial_model mname d h
  = if partial_wakes o
    then (Ok (dict_set (rotor_key mname) (length h) d),
          h ++ [Instance (made_by o) false])
    else (Ok d, h).
Proof.
  intros Hd Hh. unfold add_nopartial_model, getitem. rewrite Hd.
  unfold bind at 1. unfold ret at 1.
  unfold bind at 1. unfold get_partial_wakes at 1. rewrite Hh.
  destruct (partial_wakes o) eqn:Hpw; [|done].
  unfold setitem, deepcopy. unfold bind, ret. rewrite Hh.
  fold (rotor_key mname). rewrite dict_get_set_eq.
  unfold set_partial_wakes.
  rewrite list_lookup_middle by done. simpl.
  f_equal.
  rewrite (insert_app_r_alt h) by lia. by rewrite Nat.sub_diag.
Qed.

(** The loop over [wmodels], started after the registrations [done] with
    [todo] still to visit.  The dict holds the registered keys followed by
    the derived keys added so far, the heap the registered instances
    followed by the copies made so far. *)
Lemma nopartial_loop regs :
  NoDup (map fst regs) ->
  (forall k k', k ∈ map fst regs -> k' ∈ map fst regs -> rotor_key k <> k') ->
  forall todo done (hpre : heap), regs = done ++ todo ->
    for_each (map fst todo) add_nopartial_model
      (layout (length hpre) (map fst regs)
         ++ layout (length hpre + length regs)
              (map rotor_key_of (flagged flag0 done)))
      (hpre ++ map (fresh_of flag0) regs ++ map derived (flagged flag0 done))
    = (Ok (layout (length hpre) (map fst regs)
             ++ layout (length hpre + length regs)
                  (map rotor_key_of (flagged flag0 regs))),
       hpre ++ map (fresh_of flag0) regs ++ map derived (flagged flag0 regs)).
Proof.
  intros Hnd Hrot todo.
  induction todo as [|[k c] todo IH]; intros done hpre Hregs.
  - rewrite app_nil_r in Hregs. subst done. done.
  - simpl for_each.
    assert (Hget : dict_get k (layout (length hpre) (map fst regs)
         ++ layout (length hpre + length regs)
              (map rotor_key_of (flagged flag0 done)))
         = Some (length hpre + length done)).
    { rewrite dict_get_app. subst regs. rewrite List.map_app in *. simpl in *.
      rewrite dict_get_layout_middle by done. by rewrite length_map. }
    assert (Hobj : (hpre ++ map (fresh_of flag0) regs
                      ++ map derived (flagged flag0 done))
                   !! (length hpre + length done) = Some (fresh_of flag0 (k, c))).
    { subst regs. rewrite List.map_app. simpl. rewrite <- !app_assoc. simpl.
      rewrite app_assoc. apply list_lookup_middle.
      by rewrite length_app, length_map. }
    unfold bind at 1. rewrite (add_nopartial_model_run _ _ _ _ _ Hget Hobj).
    assert (Hregs' : regs = (done ++ [(k, c)]) ++ todo)
      by (by rewrite <- app_assoc).
    specialize (IH (done ++ [(k, c)]) hpre Hregs').
    rewrite flagged_app in IH. unfold flagged at 2 4 in IH. simpl in IH.
    unfold fresh_of at 1. unfold fresh. simpl.
    destruct (flag0 c) eqn:Hc.
    + rewrite dict_set_fresh.
      2:{ rewrite dict_get_app.
          assert (Hk : k ∈ map fst regs).
          { subst regs. rewrite List.map_app. apply elem_of_app. right. left. }
          replace (dict_get (rotor_key k) (layout (length hpre) (map fst regs)))
            with (@None nat).
          2:{ symmetry. apply dict_get_None_keys. rewrite dict_keys_layout.
              intros Hin. by apply (Hrot k (rotor_key k)). }
          apply dict_get_None_keys. rewrite dict_keys_layout.
          intros Hin.
          apply list_elem_of_In, List.in_map_iff in Hin as ([k1 c1] & Hk1 & Hin1).
          apply rotor_key_inj in Hk1. simpl in Hk1. subst k1.
          apply List.filter_In in Hin1 as [Hin1 _].
          subst regs. rewrite List.map_app in Hnd. simpl in Hnd.
          apply NoDup_app in Hnd as (_ & Hnd & _).
          apply (Hnd k); [|left].
          apply list_elem_of_In, List.in_map_iff. by exists (k, c1). }
      rewrite List.map_app, layout_app in IH. simpl in IH.
      rewrite length_map in IH. rewrite List.map_app in IH. simpl in IH.
      rewrite <- IH. f_equal.
      * rewrite <- app_assoc. do 2 f_equal.
        rewrite !length_app, !length_map. unfold rotor_key_of. simpl.
        do 2 f_equal. lia.
      * by rewrite <- !app_assoc.
    + rewrite !app_nil_r in IH. apply IH.
Qed.

Lemma nopartial_loop_all regs (h : heap) :
  NoDup (map fst regs) ->
  (forall k k', k ∈ map fst regs -> k' ∈ map fst regs -> rotor_key k <> k') ->
  add_nopartial_models (layout (length h) (map fst regs))
    (h ++ map (fresh_of flag0) regs)
  = (Ok (layout (length h) (map fst regs)
           ++ layout (length h + length regs)
                (map rotor_key_of (flagged flag0 regs))),
     h ++ map (fresh_of flag0) regs ++ map derived (flagged flag0 regs)).
Proof.
  intros Hnd Hrot. unfold add_nopartial_models. rewrite dict_keys_layout.
  pose proof (nopartial_loop regs Hnd Hrot regs [] h eq_refl) as H.
  simpl in H. rewrite !app_nil_r in H. exact H.
Qed.

(** The registered wake-model keys are distinct, and none of them is the
    derived key of another. *)
Lemma wake_regs_keys : NoDup (map fst wake_regs).
Proof. apply (bool_decide_unpack _). vm_compute. reflexivity. Qed.

Lemma wake_regs_rotor k k' :
  k ∈ map fst wake_regs -> k' ∈ map fst wake_regs -> rotor_key k <> k'.
Proof.
  revert k k'.
  assert (H : Forall (fun k => Forall (fun k' => rotor_key k <> k')
                                 (map fst wake_regs))
                (map fst wake_regs)).
  { apply (bool_decide_unpack _). vm_compute. reflexivity. }
  intros k k' Hk Hk'. rewrite Forall_forall in H. specialize (H k Hk).
  rewrite Forall_forall in H. by apply H.
Qed.

Lemma add_nopartial_models_run (h : heap) :
  add_nopartial_models (shift (length h) (fst (at_nil (init_wake_models flag0))))
    (h ++ snd (at_nil (init_wake_models flag0)))
  = (Ok (layout (length h) (map fst wake_regs)
           ++ layout (length h + length wake_regs)
                (map rotor_key_of (flagged flag0 wake_regs))),
     h ++ map (fresh_of flag0) wake_regs ++ map derived (flagged flag0 wake_regs)).
Proof.
  change (fst (at_nil (init_wake_models flag0)))
    with (layout 0 (map fst wake_regs)).
  change (snd (at_nil (init_wake_models flag0)))
    with (map (fresh_of flag0) wake_regs).
  rewrite shift_layout, Nat.add_0_r.
  apply nopartial_loop_all; [apply wake_regs_keys | apply wake_regs_rotor].
Qed.

(** [ModelBook(file)] never raises, and this is what it builds. *)
Lemma init_run file (h : heap) :
  init flag0 file h = (Ok (init_book flag0 file (length h)), h ++ init_heap flag0 file).
Proof.
  unfold init.
  rewrite (bind_ok _ _ _ _ _ (init_rotor_models_run _)).
  rewrite (bind_ok _ _ _ _ _ (init_turbine_models_run _ _)).
  rewrite (bind_ok _ _ _ _ _ (init_turbine_orders_run _)).
  rewrite (bind_ok _ _ _ _ _ (init_controllers_run _)).
  rewrite (bind_ok _ _ _ _ _ (init_wake_models_run _)).
  rewrite (bind_ok _ _ _ _ _ (add_nopartial_models_run _)).
  rewrite (bind_ok _ _ _ _ _ (init_wake_superp_run _)).
  rewrite (bind_ok _ _ _ _ _ (init_wake_frames_run _)).
  rewrite (bind_ok _ _ _ _ _ (init_farm_calc_data_models_run _)).
  unfold ret, init_book, init_heap.
  rewrite <- !app_assoc. f_equal. f_equal.
  rewrite !length_app, !length_map.
  f_equal; try (f_equal; lia). f_equal; f_equal; lia.
Qed.

(** An address past the old heap is a position in the new part. *)
Lemma lookup_past (h l : heap) a i :
  a = length h + i -> (h ++ l) !! a = l !! i.
Proof.
  intros ->. rewrite lookup_app_r by lia. f_equal. lia.
Qed.

End Construction.

(** ** The derived variants

    The state that the loop over [wmodels] leaves, for any list [regs] of
    registrations with distinct keys none of which is the derived key of
    another: [hpre] is the heap before the registrations, [hpost] what is
    allocated afterwards. *)

Section Variants.
Variable flag0 : flm -> bool.
Variable regs : list (string * flm).
Hypothesis regs_keys : NoDup (map fst regs).
Hypothesis regs_rotor :
  forall k k', k ∈ map fst regs -> k' ∈ map fst regs -> rotor_key k <> k'.
Variables hpre hpost : heap.

Local Abbreviation D := (variants_dict flag0 regs (length hpre)).
Local Abbreviation H := (variants_heap flag0 regs hpre hpost).

Lemma dict_get_layout_Some K n ks a :
  dict_get K (layout n ks) = Some a -> exists i, a = n + i /\ ks !! i = Some K.
Proof.
  revert n. induction ks as [|k ks IH]; intros n; simpl; [done|].
  destruct (String.eqb_spec K k) as [->|Hne].
  - intros [= <-]. exists 0. split; [lia|done].
  - intros (i & -> & Hi)%IH. exists (S i). split; [lia|done].
Qed.

Lemma flagged_rotor_keys : NoDup (map rotor_key_of (flagged flag0 regs)).
Proof.
  clear regs_rotor. unfold flagged.
  induction regs as [|[k c] r IH]; simpl in *; [constructor|].
  apply NoDup_cons in regs_keys as [Hk Hnd].
  destruct (flag0 c); simpl; [|by apply IH].
  apply NoDup_cons. split; [|by apply IH].
  intros Hin. apply list_elem_of_In, List.in_map_iff in Hin as ([k1 c1] & Hk1 & Hin).
  apply rotor_key_inj in Hk1. simpl in Hk1. subst k1.
  apply List.filter_In in Hin as [Hin _]. apply Hk.
  apply list_elem_of_In, List.in_map_iff. by exists (k, c1).
Qed.

Lemma named_entry r1 K c r2 :
  regs = r1 ++ (K, c) :: r2 ->
  dict_get K D = Some (length hpre + length r1)
  /\ H !! (length hpre + length r1) = Some (fresh flag0 c)
  /\ (flag0 c = true ->
      dict_get (rotor_key K) D
      = Some (length hpre + length regs + length (flagged flag0 r1))
      /\ H !! (length hpre + length regs + length (flagged flag0 r1))
         = Some (Instance c false)).
Proof.
  intros Hregs. pose proof flagged_rotor_keys as Hfk.
  assert (HK : K ∈ map fst regs).
  { rewrite Hregs, List.map_app. apply elem_of_app. right. left. }
  split; [|split].
  - unfold variants_dict. rewrite dict_get_app.
    rewrite Hregs in regs_keys |- * at 1. rewrite List.map_app in *. simpl in *.
    rewrite dict_get_layout_middle by done. by rewrite length_map.
  - unfold variants_heap. rewrite Hregs at 1. rewrite List.map_app. simpl.
    rewrite <- !app_assoc. simpl. rewrite app_assoc.
    apply list_lookup_middle. by rewrite length_app, length_map.
  - intros Hc. 
    assert (Hfl : flagged flag0 regs = flagged flag0 r1 ++ (K, c) :: flagged flag0 r2).
    { rewrite Hregs, flagged_app. unfold flagged at 2. simpl. by rewrite Hc. }
    split.
    + unfold variants_dict. rewrite dict_get_app.
      replace (dict_get (rotor_key K) (layout (length hpre) (map fst regs)))
        with (@None nat).
      2:{ symmetry. apply dict_get_None_keys. rewrite dict_keys_layout.
          intros Hin. by apply (regs_rotor K (rotor_key K)). }
      rewrite Hfl in Hfk |- *. rewrite List.map_app in *. simpl in *.
      rewrite dict_get_layout_middle by done. by rewrite length_map.
    + unfold variants_heap. rewrite Hfl. rewrite List.map_app. simpl.
      replace (hpre ++ map (fresh_of flag0) regs
                 ++ (map derived (flagged flag0 r1)
                       ++ derived (K, c) :: map derived (flagged flag0 r2)) ++ hpost)
        with ((hpre ++ map (fresh_of flag0) regs ++ map derived (flagged flag0 r1))
                ++ Instance c false :: (map derived (flagged flag0 r2) ++ hpost))
        by (by rewrite <- !app_assoc).
      apply list_lookup_middle.
      rewrite !length_app, !length_map. lia.
Qed.

Lemma entry_cases K a :
  dict_get K D = Some a ->
  (exists r1 c r2, regs = r1 ++ (K, c) :: r2 /\ a = length hpre + length r1)
  \/ ((K ∉ map fst regs)
      /\ exists o, H !! a = Some o /\ partial_wakes o = false
                   /\ length hpre + length regs <= a).
Proof.
  unfold variants_dict. rewrite dict_get_app.
  destruct (dict_get K (layout (length hpre) (map fst regs))) as [a0|] eqn:E.
  - intros [= ->]. left.
    assert (HK : K ∈ map fst regs).
    { rewrite <- (dict_keys_layout (length hpre) (map fst regs)).
      apply dict_get_keys. eauto. }
    apply list_elem_of_In, List.in_map_iff in HK as ([k c] & Hk & Hin).
    simpl in Hk. subst k.
    apply list_elem_of_In, list_elem_of_split in Hin as (r1 & r2 & Hregs).
    exists r1, c, r2. split; [done|].
    destruct (named_entry r1 K c r2 Hregs) as (Hget & _).
    unfold variants_dict in Hget. rewrite dict_get_app, E in Hget. congruence.
  - intros (i & -> & Hi)%dict_get_layout_Some. right.
    assert (HK : K ∉ map fst regs).
    { rewrite <- (dict_keys_layout (length hpre) (map fst regs)).
      by apply dict_get_None_keys. }
    split; [done|].
    assert (Hlt : i < length (flagged flag0 regs)).
    { apply lookup_lt_Some in Hi. by rewrite length_map in Hi. }
    destruct (lookup_lt_is_Some_2 (flagged flag0 regs) i Hlt) as [x Hx].
    exists (derived x). split; [|split; [done|lia]].
    unfold variants_heap. rewrite (app_assoc hpre).
    rewrite (lookup_past _ _ _ i) by (rewrite length_app, length_map; lia).
    rewrite lookup_app_l by (by rewrite length_map).
    change (map derived (flagged flag0 regs)) with (derived <$> flagged flag0 regs).
    by rewrite list_lookup_fmap, Hx.
Qed.
End Variants.

(** ** Reduction *)

Lemma reduce_attr_run self turbines mi mt mbook (h : heap) :
  ttyps !! mi = Some (ttyp_of mt) ->
  reduce_attr self turbines (mi, mt) mbook h
  = (match rebuilt self turbines mt with
     | Ok mdict => Ok (set_attr mt mdict mbook)
     | Err e => Err e
     end, h).
Proof.
  intros Hty. unfold reduce_attr, rebuilt. rewrite Hty.
  unfold bind at 1. unfold ret at 1. unfold bind.
  rewrite for_each_add_turbine.
  destruct (collect _ _ _); done.
Qed.

Lemma reduce_run flag0 self turbines (h : heap) :
  reduce flag0 self turbines h
  = (reduce_pure (init_book flag0 None (length h)) self turbines,
     h ++ init_heap flag0 None).
Proof.
  unfold reduce. rewrite (bind_ok _ _ _ _ _ (init_run flag0 None h)).
  generalize (init_book flag0 None (length h)) (h ++ init_heap flag0 None).
  intros b0 h0. unfold reduce_pure, enumerate, mtyps.
  cbn [combine seq length for_each].
  unfold bind at 1. unfold bind at 1. rewrite reduce_attr_run by done.
  destruct (rebuilt self turbines Mrotor_models) as [d1|e]; [|done].
  unfold bind at 1. rewrite reduce_attr_run by done.
  destruct (rebuilt self turbines Mturbine_models) as [d2|e]; [|done].
  unfold bind at 1. rewrite reduce_attr_run by done.
  destruct (rebuilt self turbines Mcontrollers) as [d3|e]; [|done].
  unfold bind at 1. rewrite reduce_attr_run by done.
  destruct (rebuilt self turbines Mwake_models) as [d4|e]; [|done].
  unfold bind at 1. rewrite reduce_attr_run by done.
  destruct (rebuilt self turbines Mwake_frames) as [d5|e]; done.
Qed.

Lemma reduce_pure_ok b0 self turbines c' :
  reduce_pure b0 self turbines = Ok c' ->
  (forall mt, rebuilt self turbines mt = Ok (get_attr mt c'))
  /\ wake_superp c' = wake_superp self
  /\ turbine_orders c' = turbine_orders self
  /\ amb_states_models c' = amb_states_models b0
  /\ farm_calc_data_models c' = farm_calc_data_models b0
  /\ vert_profiles c' = vert_profiles b0.
Proof.
  unfold reduce_pure.
  destruct (rebuilt self turbines Mrotor_models) as [d1|e] eqn:E1; [|done].
  destruct (rebuilt self turbines Mturbine_models) as [d2|e] eqn:E2; [|done].
  destruct (rebuilt self turbines Mcontrollers) as [d3|e] eqn:E3; [|done].
  destruct (rebuilt self turbines Mwake_models) as [d4|e] eqn:E4; [|done].
  destruct (rebuilt self turbines Mwake_frames) as [d5|e] eqn:E5; [|done].
  intros [= <-]. simpl. split; [|done]. by intros [].
Qed.

Lemma reduce_pure_err b0 self turbines e :
  reduce_pure b0 self turbines = Err e ->
  exists mt, rebuilt self turbines mt = Err e.
Proof.
  unfold reduce_pure.
  destruct (rebuilt self turbines Mrotor_models) as [d1|e1] eqn:E1;
    [|intros [= <-]; eauto].
  destruct (rebuilt self turbines Mturbine_models) as [d2|e2] eqn:E2;
    [|intros [= <-]; eauto].
  destruct (rebuilt self turbines Mcontrollers) as [d3|e3] eqn:E3;
    [|intros [= <-]; eauto].
  destruct (rebuilt self turbines Mwake_models) as [d4|e4] eqn:E4;
    [|intros [= <-]; eauto].
  destruct (rebuilt self turbines Mwake_frames) as [d5|e5] eqn:E5;
    [done|intros [= <-]; eauto].
Qed.

Lemma reduce_pure_total b0 self turbines :
  (forall mt, exists d, rebuilt self turbines mt = Ok d) ->
  exists c', reduce_pure b0 self turbines = Ok c'.
Proof.
  intros Hall. destruct (reduce_pure b0 self turbines) as [c'|e] eqn:E; [eauto|].
  apply reduce_pure_err in E as [mt E]. destruct (Hall mt) as [d Hd]. congruence.
Qed.

(** The keys that [reduce] meets for [mt] are those that some turbine
    references. *)
Lemma elem_of_all_refs mt turbines k :
  k ∈ all_refs (ttyp_of mt) turbines
  <-> exists t, t ∈ turbines /\ references mt t k.
Proof.
  unfold all_refs, references. rewrite list_elem_of_In, List.in_flat_map.
  split; intros (t & Ht & Hk); exists t; by rewrite ?list_elem_of_In in *.
Qed.

Lemma rebuilt_ok self turbines mt d :
  rebuilt self turbines mt = Ok d ->
  (forall k, k ∈ dict_keys d <-> exists t, t ∈ turbines /\ references mt t k)
  /\ NoDup (dict_keys d)
  /\ (forall k, k ∈ dict_keys d -> dict_get k d = dict_get k (get_attr mt self)).
Proof.
  intros H. destruct (collect_ok _ _ _ _ H) as (Hk & Hnd & Hag).
  split; [|split].
  - intros k. rewrite Hk, <- elem_of_all_refs. simpl. rewrite elem_of_nil. tauto.
  - apply Hnd. constructor.
  - apply Hag. intros k Hin. inversion Hin.
Qed.

Lemma rebuilt_missing self turbines mt k :
  missing self turbines mt k -> exists e, rebuilt self turbines mt = Err e.
Proof.
  intros [Href Hnone]. apply (collect_missing _ _ _ k); [|by apply elem_of_all_refs|done].
  intros k' Hin. inversion Hin.
Qed.

Lemma rebuilt_err self turbines mt e :
  rebuilt self turbines mt = Err e ->
  exists k, e = KeyError k /\ missing self turbines mt k.
Proof.
  intros (k & -> & Hin & Hnone)%collect_err. exists k. split; [done|].
  split; [by apply elem_of_all_refs | done].
Qed.

(** ** The claims about [reduce] *)

(** C1.  The book that [reduce] returns holds a key in one of the five
    rebuilt dicts exactly when some turbine of the farm references the key
    for that attribute.  A wake-model key that turbines share has exactly
    one entry, bound to the same instance as in the source book. *)
Theorem reduce_keeps_exactly_referenced flag0 self turbines (h : heap) c' h' :
  reduce flag0 self turbines h = (Ok c', h') ->
  (forall mt K,
      dict_mem K (get_attr mt c') = true
      <-> exists t, t ∈ turbines /\ references mt t K)
  /\ (forall t1 t2 K,
        t1 ∈ turbines -> t2 ∈ turbines ->
        K ∈ info_wake_models t1 -> K ∈ info_wake_models t2 ->
        dict_count K (wake_models c') = 1
        /\ exists a, dict_get K (wake_models c') = Some a
                     /\ dict_get K (wake_models self) = Some a).
Proof.
  rewrite reduce_run. intros [= Hc _].
  apply reduce_pure_ok in Hc as (Hall & _).
  split.
  - intros mt K. rewrite dict_mem_keys.
    by destruct (rebuilt_ok _ _ _ _ (Hall mt)) as (Hk & _).
  - intros t1 t2 K Ht1 _ HK1 _.
    destruct (rebuilt_ok _ _ _ _ (Hall Mwake_models)) as (Hk & Hnd & Hag).
    simpl in Hk, Hnd, Hag.
    assert (Hin : K ∈ dict_keys (wake_models c')).
    { apply Hk. exists t1. split; [done|]. exact HK1. }
    split; [by apply dict_count_NoDup|].
    destruct (proj1 (dict_get_keys _ _) Hin) as [a Ha].
    exists a. split; [done|]. rewrite <- Hag by done. done.
Qed.

Lemma reduce_keeps_exactly_referenced_witness :
  (forall mt K,
      dict_mem K (get_attr mt sample_reduced) = true
      <-> exists t, t ∈ sample_farm /\ references mt t K)
  /\ (forall t1 t2 K,
        t1 ∈ sample_farm -> t2 ∈ sample_farm ->
        K ∈ info_wake_models t1 -> K ∈ info_wake_models t2 ->
        dict_count K (wake_models sample_reduced) = 1
        /\ exists a, dict_get K (wake_models sample_reduced) = Some a
                     /\ dict_get K (wake_models sample_book) = Some a).
Proof.
  apply (reduce_keeps_exactly_referenced sample_flags sample_book sample_farm
           sample_heap sample_reduced sample_reduced_heap).
  vm_compute. reflexivity.
Defined.

(** C3, as the code has it.  When some turbine references a key that the
    source dict of that attribute does not have, [reduce] returns no book:
    it raises the [KeyError] of such a missing key.  The error carries the
    key and nothing else. *)
Theorem reduce_raises_on_missing_key flag0 self turbines (h : heap) :
  (exists mt k, missing self turbines mt k) ->
  exists k h',
    reduce flag0 self turbines h = (Err (KeyError k), h')
    /\ exists mt, missing self turbines mt k.
Proof.
  intros (mt & k & Hmiss). rewrite reduce_run.
  destruct (reduce_pure _ self turbines) as [c'|e] eqn:E.
  - apply reduce_pure_ok in E as (Hall & _).
    apply rebuilt_missing in Hmiss as [e He]. rewrite Hall in He. discriminate.
  - apply reduce_pure_err in E as [mt' E].
    apply rebuilt_err in E as (k' & -> & Hk'). eauto.
Qed.

Lemma reduce_raises_on_missing_key_witness :
  exists k h',
    reduce sample_flags sample_book stray_farm sample_heap
    = (Err (KeyError k), h')
    /\ exists mt, missing sample_book stray_farm mt k.
Proof.
  apply (reduce_raises_on_missing_key sample_flags sample_book stray_farm
           sample_heap).
  exists Mrotor_models, "ring3". split.
  - eexists. split; [left|]. left.
  - reflexivity.
Defined.

Example reduce_book_without_rotor :
  fst (reduce sample_flags book_without_rotor [turbine_x] [])
  = Err (KeyError "x").
Proof. reflexivity. Qed.

Example reduce_book_without_controller :
  fst (reduce sample_flags book_without_controller [turbine_x] [])
  = Err (KeyError "x").
Proof. reflexivity. Qed.

(** C3, as the claim has it, fails: no reading of the error tells the
    attribute whose dict lacks the key.  The two books below lack the key
    [x] in different attributes and [reduce] raises the same error. *)
Lemma keyerror_does_not_name_the_mapping :
  ~ exists kind_of : error -> mtyp,
      forall flag0 self turbines (h : heap) mt k,
        missing self turbines mt k ->
        (forall mt' k', missing self turbines mt' k' -> mt' = mt) ->
        exists e h',
          reduce flag0 self turbines h = (Err e, h') /\ kind_of e = mt.
Proof.
  intros [kind_of H].
  assert (Hx : forall mt k, references mt turbine_x k -> k = "x" /\
                 mt <> Mturbine_models /\ mt <> Mwake_models).
  { intros mt k. unfold references.
    destruct mt; cbn;
      rewrite ?list_elem_of_singleton, ?elem_of_nil; intros Hk; done. }
  assert (Hmiss : forall self mt k,
             missing self [turbine_x] mt k ->
             k = "x" /\ dict_get "x" (get_attr mt self) = None
             /\ mt <> Mturbine_models /\ mt <> Mwake_models).
  { intros self mt k [(t & ->%list_elem_of_singleton & Href) Hnone].
    apply Hx in Href as (-> & ? & ?). done. }
  destruct (H sample_flags book_without_rotor [turbine_x] [] Mrotor_models "x")
    as (e1 & h1 & Hr1 & Hk1).
  { split; [|done]. exists turbine_x. split; [left|]. left. }
  { intros mt' k' (_ & Hn & ? & ?)%Hmiss. by destruct mt'. }
  destruct (H sample_flags book_without_controller [turbine_x] [] Mcontrollers "x")
    as (e2 & h2 & Hr2 & Hk2).
  { split; [|done]. exists turbine_x. split; [left|]. left. }
  { intros mt' k' (_ & Hn & ? & ?)%Hmiss. by destruct mt'. }
  vm_compute in Hr1, Hr2.
  injection Hr1 as <- _. injection Hr2 as <- _. congruence.
Qed.

(** C5.  Whatever the farm, a book returned by [reduce] has the wake
    superposition dict and the turbine order dict of the source book,
    entry for entry; for the empty farm [reduce] does return a book. *)
Theorem reduce_copies_superp_and_orders flag0 self turbines (h : heap) c' h' :
  (reduce flag0 self turbines h = (Ok c', h') ->
   wake_superp c' = wake_superp self
   /\ turbine_orders c' = turbine_orders self)
  /\ (exists c0 h0,
        reduce flag0 self [] h = (Ok c0, h0)
        /\ wake_superp c0 = wake_superp self
        /\ turbine_orders c0 = turbine_orders self).
Proof.
  split.
  - rewrite reduce_run. intros [= Hc _].
    apply reduce_pure_ok in Hc as (_ & ? & ? & _). done.
  - rewrite reduce_run. eexists _, _. split; [reflexivity|]. done.
Qed.

Lemma reduce_copies_superp_and_orders_witness :
  (wake_superp sample_reduced = wake_superp sample_book
   /\ turbine_orders sample_reduced = turbine_orders sample_book)
  /\ (exists c0 h0,
        reduce sample_flags sample_book [] sample_heap = (Ok c0, h0)
        /\ wake_superp c0 = wake_superp sample_book
        /\ turbine_orders c0 = turbine_orders sample_book).
Proof.
  destruct (reduce_copies_superp_and_orders sample_flags sample_book sample_farm
              sample_heap sample_reduced sample_reduced_heap) as [H1 H2].
  split; [apply H1; vm_compute; reflexivity | exact H2].
Defined.

(** C6.  Reducing a reduced book against the same farm returns a book,
    and its five rebuilt dicts have the keys of the first reduction (they
    are the same dicts). *)
Theorem reduce_idempotent flag0 self turbines (h : heap) c1 h1 :
  reduce flag0 self turbines h = (Ok c1, h1) ->
  forall hx : heap, exists c2 h2,
    reduce flag0 c1 turbines hx = (Ok c2, h2)
    /\ forall mt,
         dict_keys (get_attr mt c2) = dict_keys (get_attr mt c1)
         /\ get_attr mt c2 = get_attr mt c1.
Proof.
  rewrite reduce_run. intros [= Hc _] hx.
  apply reduce_pure_ok in Hc as (Hall & _).
  assert (Hagain : forall mt, rebuilt c1 turbines mt = Ok (get_attr mt c1)).
  { intros mt. apply (collect_idem (get_attr mt self)). apply Hall. }
  rewrite reduce_run.
  destruct (reduce_pure_total (init_book flag0 None (length hx)) c1 turbines)
    as [c2 Hc2]; [eauto|].
  exists c2, (hx ++ init_heap flag0 None). split; [by rewrite Hc2|].
  apply reduce_pure_ok in Hc2 as (Hall2 & _).
  intros mt. specialize (Hall2 mt). rewrite Hagain in Hall2.
  injection Hall2 as ->. done.
Qed.

Lemma reduce_idempotent_witness :
  exists c2 h2,
    reduce sample_flags sample_reduced sample_farm sample_reduced_heap
    = (Ok c2, h2)
    /\ forall mt,
         dict_keys (get_attr mt c2) = dict_keys (get_attr mt sample_reduced)
         /\ get_attr mt c2 = get_attr mt sample_reduced.
Proof.
  apply (reduce_idempotent sample_flags sample_book sample_farm sample_heap
           sample_reduced sample_reduced_heap).
  vm_compute. reflexivity.
Defined.

(** ** The claims about construction *)

Section ConstructionClaims.
Variable flag0 : flm -> bool.

(** The heap before the wake models are registered, and the instances
    that come after the derived variants. *)
Local Abbreviation before_wake file h :=
  (h ++ snd (at_nil (init_rotor_models flag0))
     ++ snd (at_nil (init_turbine_models flag0 file))
     ++ snd (at_nil (init_turbine_orders flag0))
     ++ snd (at_nil (init_controllers flag0))).
Local Abbreviation after_wake :=
  (snd (at_nil (init_wake_superp flag0))
     ++ snd (at_nil (init_wake_frames flag0))
     ++ snd (at_nil (init_farm_calc_data_models flag0))).

Lemma init_wake_models_dict file (h : heap) :
  wake_models (init_book flag0 file (length h))
  = variants_dict flag0 wake_regs (length (before_wake file h)).
Proof.
  unfold init_book, variants_dict. cbn [wake_models].
  rewrite !length_app. f_equal; f_equal; lia.
Qed.

Lemma init_heap_variants file (h : heap) :
  h ++ init_heap flag0 file
  = variants_heap flag0 wake_regs (before_wake file h) after_wake.
Proof. unfold init_heap, variants_heap. by rewrite <- !app_assoc. Qed.

(** An instance of the rotor-model section keeps its place in the heap
    of the finished book. *)
Lemma init_heap_rotor file (h : heap) i o :
  snd (at_nil (init_rotor_models flag0)) !! i = Some o ->
  (h ++ init_heap flag0 file) !! (length h + i) = Some o.
Proof.
  intros Hi. rewrite (lookup_past _ _ _ i) by done.
  unfold init_heap. by apply lookup_app_l_Some.
Qed.

(** Nothing changes the flag of a wake model between its registration
    and the end of the construction. *)
Lemma wake_flag_since_registration file (h : heap) c h' K a o :
  init flag0 file h = (Ok c, h') ->
  dict_get K (wake_models c) = Some a -> h' !! a = Some o ->
  partial_wakes o = registered_flag flag0 K o.
Proof.
  rewrite init_run. intros [= <- <-].
  rewrite init_wake_models_dict, init_heap_variants. intros Hget Hobj.
  unfold registered_flag, named_wake_models.
  change (dict_keys (fst (at_nil (init_wake_models flag0))))
    with (map fst wake_regs).
  destruct (entry_cases flag0 wake_regs wake_regs_keys wake_regs_rotor
              _ after_wake K a Hget)
    as [(r1 & c & r2 & Hregs & ->)|(HK & o' & Hobj' & Hpw & _)].
  - destruct (named_entry flag0 wake_regs wake_regs_keys wake_regs_rotor
                (before_wake file h) after_wake r1 K c r2 Hregs)
      as (_ & Hobj' & _).
    rewrite Hobj in Hobj'. injection Hobj' as ->.
    rewrite bool_decide_eq_true_2; [done|].
    rewrite Hregs, List.map_app. apply elem_of_app. right. left.
  - rewrite Hobj in Hobj'. injection Hobj' as ->.
    by rewrite bool_decide_eq_false_2.
Qed.

(** C2.  After construction, every wake-model key [K] whose instance had
    the flag set when it was registered comes with the key [K + "_rotor"],
    bound to another object with the flag off and the same configuration;
    assigning the flag of that object leaves the original as it is. *)
Theorem nopartial_variant_of_flagged_model file (h : heap) c h' K a o :
  init flag0 file h = (Ok c, h') ->
  dict_get K (wake_models c) = Some a -> h' !! a = Some o ->
  registered_flag flag0 K o = true ->
  partial_wakes o = true
  /\ exists a' o',
       dict_get (K +:+ "_rotor") (wake_models c) = Some a'
       /\ a' <> a
       /\ h' !! a' = Some o'
       /\ partial_wakes o' = false
       /\ made_by o' = made_by o
       /\ forall b, exists h'',
            set_partial_wakes a' b h' = (Ok tt, h'') /\ h'' !! a = Some o.
Proof.
  intros Hinit Hget Hobj Hreg.
  pose proof (wake_flag_since_registration _ _ _ _ _ _ _ Hinit Hget Hobj) as Hpw.
  rewrite Hreg in Hpw. split; [done|].
  revert Hinit Hget Hobj. rewrite init_run. intros [= <- <-].
  rewrite init_wake_models_dict, init_heap_variants. intros Hget Hobj.
  destruct (entry_cases flag0 wake_regs wake_regs_keys wake_regs_rotor
              _ after_wake K a Hget)
    as [(r1 & c & r2 & Hregs & ->)|(HK & o' & Hobj' & Hpw' & _)].
  2:{ rewrite Hobj in Hobj'. injection Hobj' as ->. congruence. }
  destruct (named_entry flag0 wake_regs wake_regs_keys wake_regs_rotor
              (before_wake file h) after_wake r1 K c r2 Hregs)
    as (_ & Hobj' & Hder).
  rewrite Hobj in Hobj'. injection Hobj' as ->.
  destruct (Hder Hpw) as (Hget' & Hobj').
  eexists _, _. split; [exact Hget'|].
  assert (Hne : length (before_wake file h) + length wake_regs
                  + length (flagged flag0 r1)
                <> length (before_wake file h) + length r1).
  { assert (length r1 < length wake_regs)
      by (rewrite Hregs, length_app; simpl; lia).
    lia. }
  split; [exact Hne|]. split; [exact Hobj'|]. split; [done|]. split; [done|].
  intros b. unfold set_partial_wakes. rewrite Hobj'.
  eexists. split; [reflexivity|].
  by rewrite list_lookup_insert_ne.
Qed.

(** C7.  Without a curve file the construction succeeds, the turbine-model
    dict has no entry at all under ["ct_P_curves"], and the three other
    turbine models are registered. *)
Theorem init_without_curve_file (h : heap) :
  exists c h' a1 a2 a3,
    init flag0 None h = (Ok c, h')
    /\ dict_get "ct_P_curves" (turbine_models c) = None
    /\ dict_mem "ct_P_curves" (turbine_models c) = false
    /\ turbine_models c
       = [("yaw2yawm", a1); ("yawm2yaw", a2); ("zeroOutsideFarm", a3)]
    /\ h' !! a1 = Some (fresh flag0 (Yaw2Yawm true false))
    /\ h' !! a2 = Some (fresh flag0 (Yawm2Yaw true false))
    /\ h' !! a3 = Some (fresh flag0 ZeroOutsideFarm).
Proof.
  rewrite init_run.
  exists (init_book flag0 None (length h)), (h ++ init_heap flag0 None),
    (length h + 27), (length h + 28), (length h + 29).
  split; [done|].
  assert (Htm : turbine_models (init_book flag0 None (length h))
                = [("yaw2yawm", length h + 27); ("yawm2yaw", length h + 28);
                   ("zeroOutsideFarm", length h + 29)]).
  { generalize (length h). intros n. unfold init_book. simpl turbine_models.
    change (length (snd (at_nil (init_rotor_models flag0)))) with 27.
    change (fst (at_nil (init_turbine_models flag0 None)))
      with [("yaw2yawm", 0); ("yawm2yaw", 1); ("zeroOutsideFarm", 2)].
    unfold shift. cbn [map fst snd].
    rewrite Nat.add_0_r, <- !Nat.add_assoc. reflexivity. }
  rewrite Htm. split; [done|]. split; [done|]. split; [done|].
  rewrite !(lookup_past h (init_heap flag0 None) _ _ eq_refl).
  vm_compute. done.
Qed.

Lemma NoDup_map_add n l : NoDup l -> NoDup (map (Nat.add n) l).
Proof.
  induction 1 as [|x l Hx Hnd IH]; simpl; constructor; [|done].
  intros Hin. apply list_elem_of_In, List.in_map_iff in Hin as (y & Hy & Hin).
  assert (y = x) as -> by lia. by apply Hx, list_elem_of_In.
Qed.

(** C8.  After construction the ten keys of the ring family, for the ring
    counts 4 to 13, are distinct keys of the rotor-model dict, bound to
    ten distinct objects of the heap. *)
Theorem ring_models_distinct file (h : heap) c h' :
  init flag0 file h = (Ok c, h') ->
  exists addrs,
    map (fun key => dict_get key (rotor_models c)) ring_keys = map Some addrs
    /\ NoDup ring_keys
    /\ NoDup addrs
    /\ Forall (fun a => is_Some (h' !! a)) addrs.
Proof.
  rewrite init_run. intros [= <- <-].
  exists (map (Nat.add (length h)) (seq 2 10)). split; [|split; [|split]].
  - generalize (length h). intros n. vm_compute. reflexivity.
  - apply (bool_decide_unpack _). vm_compute. reflexivity.
  - apply NoDup_map_add, NoDup_seq.
  - apply Forall_forall. intros a Hin.
    apply list_elem_of_In, List.in_map_iff in Hin as (i & <- & Hin).
    apply list_elem_of_In, elem_of_seq in Hin.
    assert (Hi : is_Some (snd (at_nil (init_rotor_models flag0)) !! i)).
    { apply lookup_lt_is_Some_2.
      change (length (snd (at_nil (init_rotor_models flag0)))) with 27. lia. }
    destruct Hi as [o Ho]. exists o. by apply init_heap_rotor.
Qed.

(** C9.  For every ring count [k] from 4 to 13 the entry under the key
    ["ring" + str(k)] is the instance that [RMRing(n = k - 1)] returned. *)
Theorem ring_key_is_one_more file (h : heap) c h' k :
  init flag0 file h = (Ok c, h') ->
  4 <= k <= 13 ->
  exists a,
    dict_get ("ring" +:+ str k) (rotor_models c) = Some a
    /\ h' !! a = Some (fresh flag0 (RMRing (k - 1))).
Proof.
  rewrite init_run. intros [= <- <-] Hk.
  exists (length h + (k - 2)).
  assert (Hcases : k ∈ range 4 14) by (apply elem_of_seq; simpl; lia).
  clear Hk. unfold range in Hcases. simpl in Hcases.
  repeat (apply elem_of_cons in Hcases as [->|Hcases];
          [split; [generalize (length h); intros n; vm_compute; reflexivity
                  |apply init_heap_rotor; vm_compute; reflexivity]|]).
  inversion Hcases.
Qed.




(** A registration that fails fast does fail on a registered key. *)
Lemma register_fail_fast_collision d k c (h : heap) :
  dict_mem k d = true ->
  register_fail_fast flag0 d k c h = (ConstructionError k, h).
Proof. unfold register_fail_fast. by intros ->. Qed.



End ConstructionClaims.

Lemma nopartial_variant_of_flagged_model_witness :
  partial_wakes (Instance (WMJensen None) true) = true
  /\ exists a' o',
       dict_get ("Jensen" +:+ "_rotor") (wake_models sample_book) = Some a'
       /\ a' <> 35
       /\ sample_heap !! a' = Some o'
       /\ partial_wakes o' = false
       /\ made_by o' = made_by (Instance (WMJensen None) true)
       /\ forall b, exists h'',
            set_partial_wakes a' b sample_heap = (Ok tt, h'')
            /\ h'' !! 35 = Some (Instance (WMJensen None) true).
Proof.
  apply (nopartial_variant_of_flagged_model sample_flags None [] sample_book
           sample_heap "Jensen" 35 (Instance (WMJensen None) true));
    vm_compute; reflexivity.
Defined.

Lemma ring_models_distinct_witness :
  exists addrs,
    map (fun key => dict_get key (rotor_models sample_book)) ring_keys
    = map Some addrs
    /\ NoDup ring_keys
    /\ NoDup addrs
    /\ Forall (fun a => is_Some (sample_heap !! a)) addrs.
Proof.
  apply (ring_models_distinct sample_flags None [] sample_book sample_heap).
  vm_compute. reflexivity.
Defined.

Lemma ring_key_is_one_more_witness :
  exists a,
    dict_get ("ring" +:+ str 4) (rotor_models sample_book) = Some a
    /\ sample_heap !! a = Some (fresh sample_flags (RMRing (4 - 1))).
Proof.
  apply (ring_key_is_one_more sample_flags None [] sample_book sample_heap 4).
  - vm_compute. reflexivity.
  - lia.
Defined.

(** On a key that is registered twice the section that fails fast stops
    with a construction error. *)
Example fail_fast_catches_collision :
  ff_bind (register_fail_fast sample_flags [] "ring4" (RMRing 3))
    (fun d => register_fail_fast sample_flags d "ring4" (RMRing 3)) []
  = (ConstructionError "ring4", [fresh sample_flags (RMRing 3)]).
Proof. reflexivity. Qed.

(** C10.  [reduce] starts from a book that [ModelBook()] builds, without
    a curve file, on the heap of the call.  The vertical profiles, the
    ambient states models and the farm calc data models of the returned
    book are those of that book: they depend neither on the source book
    nor on the farm, and the farm calc data model is a new instance. *)
Theorem reduce_takes_defaults_from_fresh_book flag0 self turbines (h : heap) c' h' :
  reduce flag0 self turbines h = (Ok c', h') ->
  exists c0,
    init flag0 None h = (Ok c0, h')
    /\ vert_profiles c' = vert_profiles c0
    /\ amb_states_models c' = amb_states_models c0
    /\ farm_calc_data_models c' = farm_calc_data_models c0
    /\ vert_profiles c' = init_vert_profiles
    /\ amb_states_models c' = []
    /\ (exists a, farm_calc_data_models c' = [("cables_mst", a)]
                  /\ length h <= a
                  /\ h' !! a = Some (fresh flag0 CablesMST))
    /\ (forall self2 turbines2 c2 h2,
          reduce flag0 self2 turbines2 h = (Ok c2, h2) ->
          vert_profiles c2 = vert_profiles c'
          /\ amb_states_models c2 = amb_states_models c'
          /\ farm_calc_data_models c2 = farm_calc_data_models c').
Proof.
  rewrite reduce_run. intros [= Hc <-].
  apply reduce_pure_ok in Hc as (_ & _ & _ & Hamb & Hfarm & Hvert).
  exists (init_book flag0 None (length h)).
  split; [apply init_run|]. split; [done|]. split; [done|]. split; [done|].
  split; [by rewrite Hvert|]. split; [by rewrite Hamb|]. split.
  - rewrite Hfarm. unfold init_book. cbn [farm_calc_data_models].
    eexists. split; [reflexivity|]. cbn [snd length]. split; [lia|].
    unfold init_heap.
    change (snd (at_nil (init_farm_calc_data_models flag0)))
      with [fresh flag0 CablesMST].
    rewrite !app_assoc. apply list_lookup_middle.
    rewrite !length_app, !length_map. lia.
  - intros self2 turbines2 c2 h2. rewrite reduce_run. intros [= Hc2 _].
    apply reduce_pure_ok in Hc2 as (_ & _ & _ & Hamb2 & Hfarm2 & Hvert2).
    by rewrite Hamb, Hfarm, Hvert, Hamb2, Hfarm2, Hvert2.
Qed.

Lemma reduce_takes_defaults_from_fresh_book_witness :
  exists c0,
    init sample_flags None sample_heap = (Ok c0, sample_reduced_heap)
    /\ vert_profiles sample_reduced = vert_profiles c0
    /\ amb_states_models sample_reduced = amb_states_models c0
    /\ farm_calc_data_models sample_reduced = farm_calc_data_models c0
    /\ vert_profiles sample_reduced = init_vert_profiles
    /\ amb_states_models sample_reduced = []
    /\ (exists a, farm_calc_data_models sample_reduced = [("cables_mst", a)]
                  /\ length sample_heap <= a
                  /\ sample_reduced_heap !! a = Some (fresh sample_flags CablesMST))
    /\ (forall self2 turbines2 c2 h2,
          reduce sample_flags self2 turbines2 sample_heap = (Ok c2, h2) ->
          vert_profiles c2 = vert_profiles sample_reduced
          /\ amb_states_models c2 = amb_states_models sample_reduced
          /\ farm_calc_data_models c2 = farm_calc_data_models sample_reduced).
Proof.
  apply (reduce_takes_defaults_from_fresh_book sample_flags sample_book
           sample_farm sample_heap sample_reduced sample_reduced_heap).
  vm_compute. reflexivity.
Defined.

(** * Further properties *)

(** ** [reduce]: when it returns, what it returns, in which order *)

Lemma rebuilt_total self turbines mt :
  (forall k, ~ missing self turbines mt k) ->
  exists d, rebuilt self turbines mt = Ok d.
Proof.
  intros Hno. apply collect_total. intros k Hin.
  apply dict_get_keys.
  destruct (dict_get k (get_attr mt self)) as [v|] eqn:E; [eauto|].
  destruct (Hno k). split; [by apply elem_of_all_refs | done].
Qed.

Lemma rebuilt_lookup self turbines mt d :
  rebuilt self turbines mt = Ok d ->
  forall K,
    dict_get K d
    = if bool_decide (K ∈ all_refs (ttyp_of mt) turbines)
      then dict_get K (get_attr mt self) else None.
Proof.
  intros H K. destruct (rebuilt_ok _ _ _ _ H) as (Hk & _ & Hag).
  case_bool_decide as Hin.
  - apply Hag. by apply Hk, elem_of_all_refs.
  - apply dict_get_None_keys. intros HK. by apply Hin, elem_of_all_refs, Hk.
Qed.

(** X1.  [reduce] returns a book exactly when no turbine references a key
    that the source dict of the attribute does not have. *)
Theorem reduce_returns_iff_nothing_missing flag0 self turbines (h : heap) :
  (exists c' h', reduce flag0 self turbines h = (Ok c', h'))
  <-> (forall mt k, ~ missing self turbines mt k).
Proof.
  rewrite reduce_run. split.
  - intros (c' & h' & [= Hc _]) mt k Hmiss.
    apply reduce_pure_ok in Hc as (Hall & _).
    apply rebuilt_missing in Hmiss as [e He]. rewrite Hall in He. discriminate.
  - intros Hno.
    destruct (reduce_pure_total (init_book flag0 None (length h)) self turbines)
      as [c' Hc'].
    + intros mt. apply rebuilt_total, Hno.
    + rewrite Hc'. eauto.
Qed.

(** X2.  A book returned by [reduce] holds the instances of the source
    book themselves: every entry of a rebuilt dict is an entry of the
    source dict, with the same address, and no key is entered twice. *)
Theorem reduce_entries_are_source_entries flag0 self turbines (h : heap) c' h' mt :
  reduce flag0 self turbines h = (Ok c', h') ->
  NoDup (dict_keys (get_attr mt c'))
  /\ forall K a,
       dict_get K (get_attr mt c') = Some a ->
       dict_get K (get_attr mt self) = Some a.
Proof.
  rewrite reduce_run. intros [= Hc _].
  apply reduce_pure_ok in Hc as (Hall & _).
  destruct (rebuilt_ok _ _ _ _ (Hall mt)) as (_ & Hnd & Hag).
  split; [done|]. intros K a Hget. rewrite <- Hag; [done|].
  apply dict_get_keys. eauto.
Qed.

Lemma reduce_entries_are_source_entries_witness :
  NoDup (dict_keys (get_attr Mwake_models sample_reduced))
  /\ forall K a,
       dict_get K (get_attr Mwake_models sample_reduced) = Some a ->
       dict_get K (get_attr Mwake_models sample_book) = Some a.
Proof.
  apply (reduce_entries_are_source_entries sample_flags sample_book sample_farm
           sample_heap sample_reduced sample_reduced_heap Mwake_models).
  vm_compute. reflexivity.
Defined.

Lemma collect_keys_order mdict0 ks mdict mdict' :
  collect mdict0 ks mdict = Ok mdict' ->
  dict_keys mdict' = dict_keys mdict ++ first_occurrences (dict_keys mdict) ks.
Proof.
  revert mdict. induction ks as [|wm ks IH]; intros mdict; simpl.
  - intros [= <-]. by rewrite app_nil_r.
  - destruct (dict_mem wm mdict) eqn:Hmem.
    + apply dict_mem_keys in Hmem. rewrite bool_decide_eq_true_2 by done.
      apply IH.
    + destruct (dict_get wm mdict0) as [v|]; [|done].
      apply dict_mem_false in Hmem. intros H%IH.
      rewrite (dict_set_fresh _ _ _ Hmem), dict_keys_app in H. simpl in H.
      rewrite bool_decide_eq_false_2 by (by apply dict_get_None_keys).
      by rewrite H, <- app_assoc.
Qed.

(** X3.  The keys of a rebuilt dict come in the order in which [reduce]
    first meets them: turbine after turbine in farm order, and within a
    turbine in the order of its sequence. *)
Theorem reduce_keys_in_first_reference_order flag0 self turbines (h : heap)
    c' h' mt :
  reduce flag0 self turbines h = (Ok c', h') ->
  dict_keys (get_attr mt c')
  = first_occurrences [] (all_refs (ttyp_of mt) turbines).
Proof.
  rewrite reduce_run. intros [= Hc _].
  apply reduce_pure_ok in Hc as (Hall & _).
  apply (collect_keys_order _ _ _ _ (Hall mt)).
Qed.

Lemma reduce_keys_in_first_reference_order_witness :
  dict_keys (get_attr Mwake_models sample_reduced)
  = first_occurrences [] (all_refs (ttyp_of Mwake_models) sample_farm).
Proof.
  apply (reduce_keys_in_first_reference_order sample_flags sample_book
           sample_farm sample_heap sample_reduced sample_reduced_heap
           Mwake_models).
  vm_compute. reflexivity.
Defined.

Lemma all_refs_subfarm mt (ts1 ts2 : list Turbine) k :
  (forall t, t ∈ ts1 -> t ∈ ts2) ->
  k ∈ all_refs (ttyp_of mt) ts1 -> k ∈ all_refs (ttyp_of mt) ts2.
Proof.
  intros Hsub. rewrite !elem_of_all_refs. intros (t & Ht & Hk). eauto.
Qed.

(** X4.  The order of the turbines matters for the order of the entries
    only: for a farm with the same turbines in another order [reduce]
    returns a book as well, with the same bindings in the rebuilt dicts
    and the same other dicts. *)
Theorem reduce_farm_order_irrelevant flag0 self ts1 ts2 (h : heap) c1 h1 :
  ts1 ≡ₚ ts2 ->
  reduce flag0 self ts1 h = (Ok c1, h1) ->
  exists c2,
    reduce flag0 self ts2 h = (Ok c2, h1)
    /\ (forall mt, same_content (get_attr mt c2) (get_attr mt c1))
    /\ wake_superp c2 = wake_superp c1
    /\ turbine_orders c2 = turbine_orders c1
    /\ amb_states_models c2 = amb_states_models c1
    /\ farm_calc_data_models c2 = farm_calc_data_models c1
    /\ vert_profiles c2 = vert_profiles c1.
Proof.
  intros Hperm. rewrite !reduce_run. intros [= Hc <-].
  apply reduce_pure_ok in Hc as (Hall & Hws & Hto & Hamb & Hfarm & Hvert).
  assert (Hrefs : forall mt k, k ∈ all_refs (ttyp_of mt) ts2
                               <-> k ∈ all_refs (ttyp_of mt) ts1).
  { intros mt k. split; apply all_refs_subfarm; intros t; by rewrite Hperm. }
  destruct (reduce_pure_total (init_book flag0 None (length h)) self ts2)
    as [c2 Hc2].
  { intros mt. apply collect_total. intros k Hk%Hrefs.
    destruct (rebuilt_ok _ _ _ _ (Hall mt)) as (Hk1 & _ & Hag).
    apply elem_of_all_refs, Hk1 in Hk. apply dict_get_keys.
    apply dict_get_keys in Hk as [a Ha]. rewrite <- Hag; [eauto|].
    apply dict_get_keys. eauto. }
  exists c2. split; [by rewrite Hc2|].
  apply reduce_pure_ok in Hc2 as (Hall2 & Hws2 & Hto2 & Hamb2 & Hfarm2 & Hvert2).
  split; [|by rewrite Hws, Hto, Hamb, Hfarm, Hvert].
  intros mt K.
  rewrite (rebuilt_lookup _ _ _ _ (Hall mt)), (rebuilt_lookup _ _ _ _ (Hall2 mt)).
  by rewrite (bool_decide_ext _ _ (Hrefs mt K)).
Qed.

Lemma reduce_farm_order_irrelevant_witness :
  exists c2,
    reduce sample_flags sample_book sample_farm_reversed sample_heap
    = (Ok c2, sample_reduced_heap)
    /\ (forall mt, same_content (get_attr mt c2) (get_attr mt sample_reduced))
    /\ wake_superp c2 = wake_superp sample_reduced
    /\ turbine_orders c2 = turbine_orders sample_reduced
    /\ amb_states_models c2 = amb_states_models sample_reduced
    /\ farm_calc_data_models c2 = farm_calc_data_models sample_reduced
    /\ vert_profiles c2 = vert_profiles sample_reduced.
Proof.
  apply (reduce_farm_order_irrelevant sample_flags sample_book sample_farm
           sample_farm_reversed sample_heap sample_reduced sample_reduced_heap).
  - apply Permutation_rev.
  - vm_compute. reflexivity.
Defined.

(** X5.  Fewer turbines, fewer entries: when [reduce] returns a book for
    a farm, it returns one for every farm made of some of its turbines,
    and each entry of that smaller book is an entry of the larger one. *)
Theorem reduce_of_subfarm flag0 self ts1 ts2 (h : heap) c2 h2 :
  (forall t, t ∈ ts1 -> t ∈ ts2) ->
  reduce flag0 self ts2 h = (Ok c2, h2) ->
  exists c1,
    reduce flag0 self ts1 h = (Ok c1, h2)
    /\ forall mt K a,
         dict_get K (get_attr mt c1) = Some a ->
         dict_get K (get_attr mt c2) = Some a.
Proof.
  intros Hsub. rewrite !reduce_run. intros [= Hc <-].
  apply reduce_pure_ok in Hc as (Hall & _).
  destruct (reduce_pure_total (init_book flag0 None (length h)) self ts1)
    as [c1 Hc1].
  { intros mt. apply collect_total. intros k Hk.
    apply (all_refs_subfarm mt ts1 ts2 k Hsub) in Hk.
    destruct (rebuilt_ok _ _ _ _ (Hall mt)) as (Hk2 & _ & Hag).
    apply elem_of_all_refs, Hk2 in Hk. apply dict_get_keys.
    apply dict_get_keys in Hk as [a Ha]. rewrite <- Hag; [eauto|].
    apply dict_get_keys. eauto. }
  exists c1. split; [by rewrite Hc1|].
  apply reduce_pure_ok in Hc1 as (Hall1 & _).
  intros mt K a.
  rewrite (rebuilt_lookup _ _ _ _ (Hall mt)), (rebuilt_lookup _ _ _ _ (Hall1 mt)).
  case_bool_decide as H1; [|done].
  rewrite bool_decide_eq_true_2; [done|]. by apply (all_refs_subfarm mt ts1 ts2).
Qed.

Lemma reduce_of_subfarm_witness :
  exists c1,
    reduce sample_flags sample_book sample_subfarm sample_heap
    = (Ok c1, sample_reduced_heap)
    /\ forall mt K a,
         dict_get K (get_attr mt c1) = Some a ->
         dict_get K (get_attr mt sample_reduced) = Some a.
Proof.
  apply (reduce_of_subfarm sample_flags sample_book sample_subfarm sample_farm
           sample_heap sample_reduced sample_reduced_heap).
  - intros t Ht. apply list_elem_of_singleton in Ht as ->. left.
  - vm_compute. reflexivity.
Defined.

(** X6.  Reducing in two steps is reducing at once: a reduced book serves
    every farm made of turbines of the farm it was reduced for exactly
    as the source book does. *)
Theorem reduce_in_two_steps flag0 self ts ts' (h hx : heap) c1 h1 :
  reduce flag0 self ts h = (Ok c1, h1) ->
  (forall t, t ∈ ts' -> t ∈ ts) ->
  reduce flag0 c1 ts' hx = reduce flag0 self ts' hx
  /\ exists c2 h2, reduce flag0 c1 ts' hx = (Ok c2, h2).
Proof.
  rewrite !reduce_run. intros [= Hc _] Hsub.
  apply reduce_pure_ok in Hc as (Hall & Hws & Hto & _).
  assert (Hsame : forall mt, rebuilt c1 ts' mt = rebuilt self ts' mt).
  { intros mt. apply collect_ext. intros k Hk.
    apply (all_refs_subfarm mt ts' ts k Hsub) in Hk.
    by rewrite (rebuilt_lookup _ _ _ _ (Hall mt)), bool_decide_eq_true_2. }
  assert (Heq : reduce_pure (init_book flag0 None (length hx)) c1 ts'
                = reduce_pure (init_book flag0 None (length hx)) self ts').
  { unfold reduce_pure. by rewrite !Hsame, Hws, Hto. }
  split; [by rewrite Heq|]. rewrite Heq.
  destruct (reduce_pure_total (init_book flag0 None (length hx)) self ts')
    as [c2 Hc2]; [|rewrite Hc2; eauto].
  intros mt. apply collect_total. intros k Hk.
  apply (all_refs_subfarm mt ts' ts k Hsub) in Hk.
  destruct (rebuilt_ok _ _ _ _ (Hall mt)) as (Hk2 & _ & Hag).
  apply elem_of_all_refs, Hk2 in Hk. apply dict_get_keys.
  apply dict_get_keys in Hk as [a Ha]. rewrite <- Hag; [eauto|].
  apply dict_get_keys. eauto.
Qed.

Lemma reduce_in_two_steps_witness :
  reduce sample_flags sample_reduced sample_subfarm sample_reduced_heap
  = reduce sample_flags sample_book sample_subfarm sample_reduced_heap
  /\ exists c2 h2,
       reduce sample_flags sample_reduced sample_subfarm sample_reduced_heap
       = (Ok c2, h2).
Proof.
  apply (reduce_in_two_steps sample_flags sample_book sample_farm sample_subfarm
           sample_heap sample_reduced_heap sample_reduced sample_reduced_heap).
  - vm_compute. reflexivity.
  - intros t Ht. apply list_elem_of_singleton in Ht as ->. left.
Defined.

Lemma collect_first_missing mdict0 ks mdict :
  (forall k, k ∈ dict_keys mdict -> dict_mem k mdict0 = true) ->
  match List.filter (fun k => negb (dict_mem k mdict0)) ks with
  | k :: _ => collect mdict0 ks mdict = Err (KeyError k)
  | [] => exists mdict', collect mdict0 ks mdict = Ok mdict'
  end.
Proof.
  revert mdict. induction ks as [|wm ks IH]; intros mdict Hinv; simpl; [eauto|].
  destruct (dict_mem wm mdict) eqn:Hmem.
  - rewrite (Hinv wm) by (by apply dict_mem_keys). simpl. by apply IH.
  - unfold dict_mem at 1. destruct (dict_get wm mdict0) as [v|] eqn:Hget; simpl.
    + apply IH. intros k. apply dict_mem_false in Hmem.
      rewrite (dict_set_fresh _ _ _ Hmem), dict_keys_app, elem_of_app. simpl.
      rewrite list_elem_of_singleton. intros [?| ->]; [auto|].
      unfold dict_mem. by rewrite Hget.
    + done.
Qed.

(** X7.  The error of [reduce] is the [KeyError] of the first missing
    reference on its way: attribute after attribute in the order rotor
    models, turbine models, controllers, wake models, wake frames, and
    within an attribute in farm order.  Without a missing reference it
    returns a book. *)
Theorem reduce_raises_first_missing_key flag0 self turbines (h : heap) :
  match first_missing self turbines with
  | Some k => fst (reduce flag0 self turbines h) = Err (KeyError k)
  | None => exists c', fst (reduce flag0 self turbines h) = Ok c'
  end.
Proof.
  rewrite reduce_run. simpl fst.
  generalize (init_book flag0 None (length h)). intros b0.
  unfold first_missing, reduce_pure, mtyps. simpl flat_map.
  assert (Hstep : forall mt,
            match missing_refs self turbines mt with
            | k :: _ => rebuilt self turbines mt = Err (KeyError k)
            | [] => exists d, rebuilt self turbines mt = Ok d
            end).
  { intros mt. apply collect_first_missing. intros k Hk. inversion Hk. }
  pose proof (Hstep Mrotor_models) as H1.
  destruct (missing_refs self turbines Mrotor_models); [|rewrite H1; reflexivity].
  destruct H1 as [d1 ->]. simpl.
  pose proof (Hstep Mturbine_models) as H2.
  destruct (missing_refs self turbines Mturbine_models); [|rewrite H2; reflexivity].
  destruct H2 as [d2 ->]. simpl.
  pose proof (Hstep Mcontrollers) as H3.
  destruct (missing_refs self turbines Mcontrollers); [|rewrite H3; reflexivity].
  destruct H3 as [d3 ->]. simpl.
  pose proof (Hstep Mwake_models) as H4.
  destruct (missing_refs self turbines Mwake_models); [|rewrite H4; reflexivity].
  destruct H4 as [d4 ->]. simpl.
  pose proof (Hstep Mwake_frames) as H5.
  destruct (missing_refs self turbines Mwake_frames); [|rewrite H5; reflexivity].
  destruct H5 as [d5 ->]. simpl. eexists. reflexivity.
Qed.

(** X8.  Whether it returns or raises, [reduce] leaves the heap in the
    state in which one call of [ModelBook()] leaves it: the objects that
    were there are still there, unchanged, followed by new ones. *)
Theorem reduce_heap_effect flag0 self turbines (h : heap) :
  snd (reduce flag0 self turbines h) = snd (init flag0 None h)
  /\ h `prefix_of` snd (reduce flag0 self turbines h).
Proof.
  rewrite reduce_run, init_run. split; [done|]. by eexists.
Qed.

(** X9.  For a farm without turbines [reduce] returns, from any book, a
    book whose five rebuilt dicts are empty; its listing is the five
    titles, each with the marker of an empty section. *)
Theorem reduce_empty_farm flag0 model_str self (h : heap) :
  exists c' h',
    reduce flag0 self [] h = (Ok c', h')
    /\ (forall mt, get_attr mt c' = [])
    /\ repr model_str c' h' = (Ok (listing [] [] [] [] []), h').
Proof.
  rewrite reduce_run. eexists _, _. split; [reflexivity|].
  split; [by intros []|]. reflexivity.
Qed.

(** ** Construction: the instances and the keys *)

Lemma map_snd_shift n d : map snd (shift n d) = map (Nat.add n) (map snd d).
Proof. unfold shift. rewrite !List.map_map. done. Qed.

Lemma map_snd_layout n ks : map snd (layout n ks) = seq n (length ks).
Proof.
  revert n. induction ks as [|k ks IH]; intros n; simpl; [done|].
  by rewrite IH.
Qed.

Lemma map_add_seq n k : map (Nat.add n) (seq 0 k) = seq n k.
Proof.
  change (map (Nat.add n) (seq 0 k)) with (Nat.add n <$> seq 0 k).
  by rewrite fmap_add_seq, Nat.add_0_r.
Qed.

Lemma dict_get_shift k n d :
  dict_get k (shift n d) = Nat.add n <$> dict_get k d.
Proof.
  induction d as [|[k' v] d IH]; simpl; [done|].
  destruct (String.eqb k k'); done.
Qed.

Section ConstructionFacts.
Variable flag0 : flm -> bool.

Lemma shift_in_creation_order c n :
  in_creation_order c ->
  map snd (shift n (fst (at_nil c))) = seq n (length (snd (at_nil c))).
Proof. intros Hc. by rewrite map_snd_shift, Hc, map_add_seq. Qed.

Lemma init_book_addrs file n :
  book_addrs (init_book flag0 file n) = seq n (length (init_heap flag0 file)).
Proof.
  unfold book_addrs, init_book, init_heap.
  cbn [rotor_models turbine_models turbine_orders controllers wake_models
       wake_superp wake_frames farm_calc_data_models].
  rewrite !shift_in_creation_order
    by (try destruct file; vm_compute; reflexivity).
  rewrite List.map_app, !map_snd_layout.
  rewrite !length_app, !length_map.
  rewrite !seq_app. rewrite <- !app_assoc. reflexivity.
Qed.

(** X10.  The entries of a constructed book are its new instances: the
    construction adds objects at the end of the heap and changes none of
    the old ones, and the addresses in its eight dicts of models, taken in
    the order of the construction, are the addresses of the added
    objects, each once. *)
Theorem init_entries_are_the_new_instances file (h : heap) c h' :
  init flag0 file h = (Ok c, h') ->
  exists l, h' = h ++ l
            /\ book_addrs c = seq (length h) (length l)
            /\ NoDup (book_addrs c).
Proof.
  rewrite init_run. intros [= <- <-]. exists (init_heap flag0 file).
  split; [done|]. rewrite init_book_addrs. split; [done|]. apply NoDup_seq.
Qed.

(** The flag of a wake model registered by name is the flag that its
    constructor set. *)
Lemma flag_of_named file (h : heap) K c :
  (K, c) ∈ wake_regs ->
  flag_of (init_book flag0 file (length h)) (h ++ init_heap flag0 file) K
  = flag0 c.
Proof.
  intros (r1 & r2 & Hregs)%list_elem_of_split. unfold flag_of.
  rewrite init_wake_models_dict, init_heap_variants.
  destruct (named_entry flag0 wake_regs wake_regs_keys wake_regs_rotor
              (h ++ snd (at_nil (init_rotor_models flag0))
                 ++ snd (at_nil (init_turbine_models flag0 file))
                 ++ snd (at_nil (init_turbine_orders flag0))
                 ++ snd (at_nil (init_controllers flag0)))
              (snd (at_nil (init_wake_superp flag0))
                 ++ snd (at_nil (init_wake_frames flag0))
                 ++ snd (at_nil (init_farm_calc_data_models flag0)))
              r1 K c r2 Hregs) as (-> & -> & _).
  done.
Qed.

Lemma map_fst_filter {A B} (P : A -> bool) (Q : A * B -> bool) (l : list (A * B)) :
  (forall x, x ∈ l -> P (fst x) = Q x) ->
  map fst (List.filter Q l) = List.filter P (map fst l).
Proof.
  induction l as [|x l IH]; intros H; simpl; [done|].
  rewrite (H x) by left.
  assert (map fst (List.filter Q l) = List.filter P (map fst l)) as Hl
    by (apply IH; intros; apply H; by right).
  destruct (Q x); simpl; by rewrite Hl.
Qed.

(** The keys of the wake-model dict of a constructed book. *)
Lemma init_wake_keys file (h : heap) :
  dict_keys (wake_models (init_book flag0 file (length h)))
  = named_wake_models flag0
      ++ map rotor_key
           (List.filter
              (flag_of (init_book flag0 file (length h)) (h ++ init_heap flag0 file))
              (named_wake_models flag0)).
Proof.
  rewrite init_wake_models_dict at 1. unfold variants_dict.
  rewrite dict_keys_app, !dict_keys_layout.
  change (named_wake_models flag0) with (map fst wake_regs). f_equal.
  rewrite <- (map_fst_filter _ (fun kc => flag0 (snd kc))).
  - unfold flagged, rotor_key_of. by rewrite List.map_map.
  - intros [K c] Hin. by apply flag_of_named.
Qed.

(** X11.  The wake-model dict of a constructed book lists the models
    registered by name, in the order of their registration, and after
    them one derived key for each of those whose flag is set, in the same
    order; it has no other key. *)
Theorem init_wake_model_keys file (h : heap) c h' :
  init flag0 file h = (Ok c, h') ->
  dict_keys (wake_models c)
  = named_wake_models flag0
      ++ map rotor_key (List.filter (flag_of c h') (named_wake_models flag0)).
Proof. rewrite init_run. intros [= <- <-]. apply init_wake_keys. Qed.

Lemma ends_rotor_key K : ends_rotor (rotor_key K) = true.
Proof.
  unfold rotor_key. induction K as [|a K IH].
  - reflexivity.
  - change (String a K +:+ "_rotor") with (String a (K +:+ "_rotor")).
    simpl. rewrite IH. apply orb_true_r.
Qed.

Lemma named_not_derived K : K ∈ named_wake_models flag0 -> ends_rotor K = false.
Proof.
  revert K. apply Forall_forall.
  apply (bool_decide_unpack _). vm_compute. reflexivity.
Qed.

(** X12.  A derived key is there for a flagged model registered by name
    and for nothing else: when [K + "_rotor"] is a key of the wake-model
    dict of a constructed book, [K] is a model registered by name whose
    flag is set, and the derived key has no derived key of its own. *)
Theorem derived_key_only_for_flagged_named file (h : heap) c h' K :
  init flag0 file h = (Ok c, h') ->
  rotor_key K ∈ dict_keys (wake_models c) ->
  K ∈ named_wake_models flag0
  /\ flag_of c h' K = true
  /\ rotor_key (rotor_key K) ∉ dict_keys (wake_models c).
Proof.
  rewrite init_run. intros [= <- <-]. rewrite init_wake_keys.
  rewrite !elem_of_app. intros [Hin|Hin].
  { apply named_not_derived in Hin. by rewrite ends_rotor_key in Hin. }
  apply list_elem_of_In, List.in_map_iff in Hin as (k0 & Hk0 & Hin).
  apply rotor_key_inj in Hk0 as ->.
  apply List.filter_In in Hin as [Hin Hflag]. apply list_elem_of_In in Hin.
  split; [done|]. split; [done|]. intros [Hin2|Hin2].
  - apply named_not_derived in Hin2. by rewrite ends_rotor_key in Hin2.
  - apply list_elem_of_In, List.in_map_iff in Hin2 as (k1 & Hk1 & Hin2).
    apply rotor_key_inj in Hk1 as ->.
    apply List.filter_In in Hin2 as [Hin2 _]. apply list_elem_of_In in Hin2.
    apply named_not_derived in Hin2. by rewrite ends_rotor_key in Hin2.
Qed.

(** X13.  With a curve file the turbine-model dict starts with the key
    ["ct_P_curves"], bound to the instance that [Ws2PCt] returned for this
    file, followed by the three models that are always there. *)
Theorem init_with_curve_file file (h : heap) c h' :
  init flag0 (Some file) h = (Ok c, h') ->
  exists a0 a1 a2 a3,
    turbine_models c
    = [("ct_P_curves", a0); ("yaw2yawm", a1); ("yawm2yaw", a2);
       ("zeroOutsideFarm", a3)]
    /\ h' !! a0 = Some (fresh flag0 (Ws2PCt file))
    /\ h' !! a1 = Some (fresh flag0 (Yaw2Yawm true false))
    /\ h' !! a2 = Some (fresh flag0 (Yawm2Yaw true false))
    /\ h' !! a3 = Some (fresh flag0 ZeroOutsideFarm).
Proof.
  rewrite init_run. intros [= <- <-].
  exists (length h + 27), (length h + 28), (length h + 29), (length h + 30).
  split.
  - generalize (length h). intros n. unfold init_book. cbn [turbine_models].
    change (length (snd (at_nil (init_rotor_models flag0)))) with 27.
    change (fst (at_nil (init_turbine_models flag0 (Some file))))
      with [("ct_P_curves", 0); ("yaw2yawm", 1); ("yawm2yaw", 2);
            ("zeroOutsideFarm", 3)].
    unfold shift. cbn [map fst snd].
    rewrite Nat.add_0_r, <- !Nat.add_assoc. reflexivity.
  - rewrite !(lookup_past h (init_heap flag0 (Some file)) _ _ eq_refl).
    vm_compute. done.
Qed.

(** The instances created after the wake models keep their place in the
    heap of the finished book. *)
Lemma init_heap_after_wake file (h : heap) n i o :
  n = length h + length (snd (at_nil (init_rotor_models flag0)))
      + length (snd (at_nil (init_turbine_models flag0 file)))
      + length (snd (at_nil (init_turbine_orders flag0)))
      + length (snd (at_nil (init_controllers flag0)))
      + length wake_regs + length (flagged flag0 wake_regs) ->
  (snd (at_nil (init_wake_superp flag0))
     ++ snd (at_nil (init_wake_frames flag0))
     ++ snd (at_nil (init_farm_calc_data_models flag0))) !! i = Some o ->
  (h ++ init_heap flag0 file) !! (n + i) = Some o.
Proof.
  intros -> Hi. unfold init_heap.
  replace (h ++ snd (at_nil (init_rotor_models flag0))
             ++ snd (at_nil (init_turbine_models flag0 file))
             ++ snd (at_nil (init_turbine_orders flag0))
             ++ snd (at_nil (init_controllers flag0))
             ++ map (fresh_of flag0) wake_regs
             ++ map derived (flagged flag0 wake_regs)
             ++ snd (at_nil (init_wake_superp flag0))
             ++ snd (at_nil (init_wake_frames flag0))
             ++ snd (at_nil (init_farm_calc_data_models flag0)))
    with ((h ++ snd (at_nil (init_rotor_models flag0))
             ++ snd (at_nil (init_turbine_models flag0 file))
             ++ snd (at_nil (init_turbine_orders flag0))
             ++ snd (at_nil (init_controllers flag0))
             ++ map (fresh_of flag0) wake_regs
             ++ map derived (flagged flag0 wake_regs))
            ++ (snd (at_nil (init_wake_superp flag0))
                  ++ snd (at_nil (init_wake_frames flag0))
                  ++ snd (at_nil (init_farm_calc_data_models flag0))))
    by (by rewrite <- !app_assoc).
  rewrite (lookup_past _ _ _ i); [done|].
  rewrite !length_app, !length_map. lia.
Qed.

Lemma superp_entries b1 b2 :
  exists i j,
    dict_get (superp_key "wind_linear" b1 b2)
      (fst (at_nil (init_wake_superp flag0))) = Some i
    /\ (snd (at_nil (init_wake_superp flag0))
          ++ snd (at_nil (init_wake_frames flag0))
          ++ snd (at_nil (init_farm_calc_data_models flag0))) !! i
       = Some (fresh flag0 (WindSuperpLinear b1 b2))
    /\ dict_get (superp_key "wind_quadratic" b1 b2)
         (fst (at_nil (init_wake_superp flag0))) = Some j
    /\ (snd (at_nil (init_wake_superp flag0))
          ++ snd (at_nil (init_wake_frames flag0))
          ++ snd (at_nil (init_farm_calc_data_models flag0))) !! j
       = Some (fresh flag0 (WindSuperpQuadratic b1 b2)).
Proof.
  destruct b1, b2; [exists 6, 10 | exists 4, 8 | exists 5, 9 | exists 3, 7];
    vm_compute; done.
Qed.

(** X14.  The keys of the wind superposition models spell their
    switches: for both families and each choice of the two switches, the
    key made of the family name, ["_amb"] if the ambient wind speed is
    used and ["_lim"] if the wake is limited, is bound to the model built
    with these switches. *)
Theorem superposition_key_spells_switches file (h : heap) c h' b1 b2 :
  init flag0 file h = (Ok c, h') ->
  exists a1 a2,
    dict_get (superp_key "wind_linear" b1 b2) (wake_superp c) = Some a1
    /\ h' !! a1 = Some (fresh flag0 (WindSuperpLinear b1 b2))
    /\ dict_get (superp_key "wind_quadratic" b1 b2) (wake_superp c) = Some a2
    /\ h' !! a2 = Some (fresh flag0 (WindSuperpQuadratic b1 b2)).
Proof.
  rewrite init_run. intros [= <- <-].
  destruct (superp_entries b1 b2) as (i & j & Hi & Hoi & Hj & Hoj).
  unfold init_book. cbn [wake_superp]. rewrite !dict_get_shift, Hi, Hj.
  eexists _, _. split; [reflexivity|]. split.
  { by apply init_heap_after_wake. }
  split; [reflexivity|]. by apply init_heap_after_wake.
Qed.

(** X15.  The key of a grid rotor model is ["grid"] followed by the
    number of its points: for every side [n] from 2 to 10, and for the
    sides 20 and 100, the key ["grid" + str(n * n)] is bound to the
    instance that [RMGrid(n)] returned. *)
Theorem grid_key_is_point_count file (h : heap) c h' n :
  init flag0 file h = (Ok c, h') ->
  n ∈ grid_sides ->
  exists a,
    dict_get ("grid" +:+ str (n * n)) (rotor_models c) = Some a
    /\ h' !! a = Some (fresh flag0 (RMGrid n)).
Proof.
  rewrite init_run. intros [= <- <-] Hn.
  exists (length h + (if Nat.leb n 10 then 14 + n else if Nat.eqb n 20 then 25 else 26)).
  unfold grid_sides, range in Hn. simpl in Hn.
  repeat (apply elem_of_cons in Hn as [->|Hn];
          [split; [generalize (length h); intros m; vm_compute; reflexivity
                  |apply init_heap_rotor; vm_compute; reflexivity]|]).
  inversion Hn.
Qed.

End ConstructionFacts.

Lemma init_entries_are_the_new_instances_witness :
  exists l, sample_heap = [] ++ l
            /\ book_addrs sample_book = seq (length (@nil instance)) (length l)
            /\ NoDup (book_addrs sample_book).
Proof.
  apply (init_entries_are_the_new_instances sample_flags None [] sample_book
           sample_heap).
  vm_compute. reflexivity.
Defined.

Lemma init_wake_model_keys_witness :
  dict_keys (wake_models sample_book)
  = named_wake_models sample_flags
      ++ map rotor_key
           (List.filter (flag_of sample_book sample_heap)
              (named_wake_models sample_flags)).
Proof.
  apply (init_wake_model_keys sample_flags None [] sample_book sample_heap).
  vm_compute. reflexivity.
Defined.

Lemma derived_key_only_for_flagged_named_witness :
  "Jensen" ∈ named_wake_models sample_flags
  /\ flag_of sample_book sample_heap "Jensen" = true
  /\ rotor_key (rotor_key "Jensen") ∉ dict_keys (wake_models sample_book).
Proof.
  apply (derived_key_only_for_flagged_named sample_flags None [] sample_book
           sample_heap "Jensen").
  - vm_compute. reflexivity.
  - apply (bool_decide_unpack _). vm_compute. reflexivity.
Defined.

Lemma init_with_curve_file_witness :
  exists a0 a1 a2 a3,
    turbine_models sample_book_with_curves
    = [("ct_P_curves", a0); ("yaw2yawm", a1); ("yawm2yaw", a2);
       ("zeroOutsideFarm", a3)]
    /\ sample_heap_with_curves !! a0 = Some (fresh sample_flags (Ws2PCt sample_file))
    /\ sample_heap_with_curves !! a1
       = Some (fresh sample_flags (Yaw2Yawm true false))
    /\ sample_heap_with_curves !! a2
       = Some (fresh sample_flags (Yawm2Yaw true false))
    /\ sample_heap_with_curves !! a3 = Some (fresh sample_flags ZeroOutsideFarm).
Proof.
  apply (init_with_curve_file sample_flags sample_file []
           sample_book_with_curves sample_heap_with_curves).
  vm_compute. reflexivity.
Defined.

Lemma superposition_key_spells_switches_witness :
  exists a1 a2,
    dict_get (superp_key "wind_linear" true false) (wake_superp sample_book)
    = Some a1
    /\ sample_heap !! a1 = Some (fresh sample_flags (WindSuperpLinear true false))
    /\ dict_get (superp_key "wind_quadratic" true false) (wake_superp sample_book)
       = Some a2
    /\ sample_heap !! a2
       = Some (fresh sample_flags (WindSuperpQuadratic true false)).
Proof.
  apply (superposition_key_spells_switches sample_flags None [] sample_book
           sample_heap true false).
  vm_compute. reflexivity.
Defined.

Lemma grid_key_is_point_count_witness :
  exists a,
    dict_get ("grid" +:+ str (20 * 20)) (rotor_models sample_book) = Some a
    /\ sample_heap !! a = Some (fresh sample_flags (RMGrid 20)).
Proof.
  apply (grid_key_is_point_count sample_flags None [] sample_book sample_heap 20).
  - vm_compute. reflexivity.
  - apply (bool_decide_unpack _). vm_compute. reflexivity.
Defined.

(** ** [__repr__] *)

Lemma string_app_assoc (a b c : string) : (a +:+ b) +:+ c = a +:+ (b +:+ c).
Proof.
  induction a as [|x a IH]; [reflexivity|].
  change (String x ((a +:+ b) +:+ c) = String x (a +:+ (b +:+ c))).
  by rewrite IH.
Qed.

Lemma string_app_nil_r (a : string) : a +:+ "" = a.
Proof.
  induction a as [|x a IH]; [reflexivity|].
  change (String x (a +:+ "") = String x a). by rewrite IH.
Qed.

Lemma string_concat_cons (x : string) (l : list string) :
  String.concat "" (x :: l) = x +:+ String.concat "" l.
Proof. destruct l; simpl; [by rewrite string_app_nil_r | done]. Qed.

Section ReprFacts.
Variable model_str : instance -> string.

(** The loop over the items of a section appends their lines. *)
Lemma repr_lines (h : heap) d : forall es out,
  described model_str h d = Some es ->
  for_each d (fun item out =>
      let (mname, m) := item in
      s <- str_of model_str m ;;
      ret (out +:+ ((((nl +:+ "  ") +:+ mname) +:+ " -- ") +:+ s)))
    out h
  = (Ok (out +:+ String.concat "" (map listing_line es)), h).
Proof.
  induction d as [|[k a] d IH]; intros es out; simpl described.
  - intros [= <-]. simpl. by rewrite string_app_nil_r.
  - destruct (h !! a) as [o|] eqn:Ho; [|done].
    destruct (described model_str h d) as [es'|]; [|done].
    intros [= <-]. simpl for_each. unfold bind at 1. unfold bind at 1.
    unfold str_of at 1. rewrite Ho. unfold ret at 1.
    rewrite (IH es' _ eq_refl). f_equal. f_equal.
    change (map listing_line ((k, model_str o) :: es'))
      with (listing_line (k, model_str o) :: map listing_line es').
    rewrite string_concat_cons. unfold listing_line. cbn [fst snd].
    by rewrite !string_app_assoc.
Qed.

Lemma repr_items_run (h : heap) d es out :
  described model_str h d = Some es ->
  repr_items model_str d out h
  = (Ok (out +:+ match es with
                 | [] => nl +:+ "  (None)"
                 | _ => String.concat "" (map listing_line es)
                 end), h).
Proof.
  intros Hd. unfold repr_items. destruct d as [|[k a] d].
  - injection Hd as <-. reflexivity.
  - cbn [length Nat.eqb]. rewrite (repr_lines h _ es out Hd).
    destruct es as [|e es]; [|done].
    simpl in Hd. destruct (h !! a); [|done].
    destruct (described model_str h d); done.
Qed.

(** X16.  [__repr__] builds the listing of the five sections rotor
    models, controllers, turbine models, wake centreline models and wake
    models: a title per section, then one line per entry in the order of
    the dict, with the key and the description of the model, or the
    marker for an empty dict.  It reads nothing else of the book and
    leaves the heap as it is. *)
Theorem repr_is_the_listing self (h : heap) rotor ctrl tmodels frames wakes :
  described model_str h (rotor_models self) = Some rotor ->
  described model_str h (controllers self) = Some ctrl ->
  described model_str h (turbine_models self) = Some tmodels ->
  described model_str h (wake_frames self) = Some frames ->
  described model_str h (wake_models self) = Some wakes ->
  repr model_str self h = (Ok (listing rotor ctrl tmodels frames wakes), h).
Proof.
  intros H1 H2 H3 H4 H5. unfold repr.
  rewrite (bind_ok _ _ _ _ _ (repr_items_run h _ _ _ H1)).
  rewrite (bind_ok _ _ _ _ _ (repr_items_run h _ _ _ H2)).
  rewrite (bind_ok _ _ _ _ _ (repr_items_run h _ _ _ H3)).
  rewrite (bind_ok _ _ _ _ _ (repr_items_run h _ _ _ H4)).
  rewrite (bind_ok _ _ _ _ _ (repr_items_run h _ _ _ H5)).
  unfold ret, listing, listing_section. cbn [String.concat].
  f_equal. f_equal. by rewrite !string_app_assoc.
Qed.

End ReprFacts.

Lemma repr_is_the_listing_witness :
  repr sample_str sample_reduced sample_reduced_heap
  = (Ok (listing (sample_entries Mrotor_models) (sample_entries Mcontrollers)
           (sample_entries Mturbine_models) (sample_entries Mwake_frames)
           (sample_entries Mwake_models)),
     sample_reduced_heap).
Proof.
  apply (repr_is_the_listing sample_str sample_reduced sample_reduced_heap);
    vm_compute; reflexivity.
Defined.

(** ** The sections of the construction that stay as they are *)

(** X17.  Whatever the curve file, the heap and the flags, a constructed
    book offers the same turbine orders, controller and wake frames, each
    key bound to an instance built with the arguments that the key names
    (the ambient wind order with [use_amb = True], the wake wind order
    with [use_amb = False]), and the same four vertical profile names. *)
Theorem init_fixed_sections flag0 file (h : heap) c h' :
  init flag0 file h = (Ok c, h') ->
  constructed h' (turbine_orders c)
  = [("farm", Some FarmTurbineOrder);
     ("amb_wind", Some (WindTurbineOrder true));
     ("wake_wind", Some (WindTurbineOrder false));
     ("wake_frame", Some WakeFrameTurbineOrder)]
  /\ constructed h' (controllers c) = [("default", Some WTCDefault)]
  /\ constructed h' (wake_frames c)
     = [("amb_wind", Some AmbientWindFrame);
        ("rotor_wind", Some RotorWindFrame);
        ("yaw_deflection", Some YawDeflectionFrame);
        ("streamlines", Some StreamlineFrame)]
  /\ vert_profiles c
     = [("ws_abl_log_neutral", "ABLLogNeutralWsProfile");
        ("ws_abl_log_stable", "ABLLogStableWsProfile");
        ("ws_abl_log_unstable", "ABLLogUnstableWsProfile");
        ("ws_abl_log", "ABLLogWsProfile")].
Proof.
  rewrite init_run. intros [= <- <-].
  split; [|split; [|split; [|reflexivity]]].
  - unfold constructed, init_book. cbn [turbine_orders].
    change (fst (at_nil (init_turbine_orders flag0)))
      with [("farm", 0); ("amb_wind", 1); ("wake_wind", 2); ("wake_frame", 3)].
    unfold shift. cbn [map fst snd].
    destruct file as [file|];
      [rewrite (lookup_past h _ _ 31), (lookup_past h _ _ 32),
         (lookup_past h _ _ 33), (lookup_past h _ _ 34)
         by (vm_compute length; lia)
      |rewrite (lookup_past h _ _ 30), (lookup_past h _ _ 31),
         (lookup_past h _ _ 32), (lookup_past h _ _ 33)
         by (vm_compute length; lia)];
      vm_compute; reflexivity.
  - unfold constructed, init_book. cbn [controllers].
    change (fst (at_nil (init_controllers flag0))) with [("default", 0)].
    unfold shift. cbn [map fst snd].
    destruct file as [file|];
      [rewrite (lookup_past h _ _ 35) by (vm_compute length; lia)
      |rewrite (lookup_past h _ _ 34) by (vm_compute length; lia)];
      vm_compute; reflexivity.
  - unfold constructed, init_book. cbn [wake_frames].
    change (fst (at_nil (init_wake_frames flag0)))
      with [("amb_wind", 0); ("rotor_wind", 1); ("yaw_deflection", 2);
            ("streamlines", 3)].
    unfold shift. cbn [map fst snd].
    remember (length h + length (snd (at_nil (init_rotor_models flag0)))
              + length (snd (at_nil (init_turbine_models flag0 file)))
              + length (snd (at_nil (init_turbine_orders flag0)))
              + length (snd (at_nil (init_controllers flag0)))
              + length wake_regs + length (flagged flag0 wake_regs))
      as n6 eqn:Hn6.
    change (length (snd (at_nil (init_wake_superp flag0)))) with 12.
    rewrite <- !(Nat.add_assoc n6).
    change (12 + 0) with 12. change (12 + 1) with 13.
    change (12 + 2) with 14. change (12 + 3) with 15.
    rewrite (init_heap_after_wake flag0 file h n6 12 _ Hn6 eq_refl),
      (init_heap_after_wake flag0 file h n6 13 _ Hn6 eq_refl),
      (init_heap_after_wake flag0 file h n6 14 _ Hn6 eq_refl),
      (init_heap_after_wake flag0 file h n6 15 _ Hn6 eq_refl).
    reflexivity.
Qed.

Lemma init_fixed_sections_witness :
  constructed sample_heap_with_curves (turbine_orders sample_book_with_curves)
  = [("farm", Some FarmTurbineOrder);
     ("amb_wind", Some (WindTurbineOrder true));
     ("wake_wind", Some (WindTurbineOrder false));
     ("wake_frame", Some WakeFrameTurbineOrder)]
  /\ constructed sample_heap_with_curves (controllers sample_book_with_curves)
     = [("default", Some WTCDefault)]
  /\ constructed sample_heap_with_curves (wake_frames sample_book_with_curves)
     = [("amb_wind", Some AmbientWindFrame);
        ("rotor_wind", Some RotorWindFrame);
        ("yaw_deflection", Some YawDeflectionFrame);
        ("streamlines", Some StreamlineFrame)]
  /\ vert_profiles sample_book_with_curves
     = [("ws_abl_log_neutral", "ABLLogNeutralWsProfile");
        ("ws_abl_log_stable", "ABLLogStableWsProfile");
        ("ws_abl_log_unstable", "ABLLogUnstableWsProfile");
        ("ws_abl_log", "ABLLogWsProfile")].
Proof.
  apply (init_fixed_sections sample_flags (Some sample_file) []
           sample_book_with_curves sample_heap_with_curves).
  vm_compute. reflexivity.
Defined.
